(** * Session and progress engine of the habit tracker (src/App.tsx)

    A shallow embedding of the timer state machine, the session ledger,
    the streak rule and the goal-progress query of [App.tsx].

    Modelling conventions.
    - JavaScript numbers that hold whole seconds, minutes or epoch
      milliseconds are [Z]; the embedding is exact for values inside the
      safe-integer range of a double.
    - React state ([habits], [history], [goals]) and the ref
      [isDraggingRef] form one [State] record.  A functional updater
      [setX(prev => f prev)] is the state transformer [f]; updaters run in
      the order in which they were queued, each on the result of the one
      before.
    - Every reading of the outside world is an explicit input ([Env]): the
      clock [Date.now()], the offset of the local time zone and the text
      produced by [Math.random()].  The time zone is a fixed offset from
      UTC (no daylight-saving change inside one run).
    - Display-only data (the [timestampStr] of a history item, modal
      visibility flags, themes) is left out. *)

From Stdlib Require Import ZArith List String Ascii Bool Lia DecimalString.
From Stdlib Require Import DecimalPos Permutation Sorted.
Import ListNotations.
Open Scope Z_scope.

(* ===================================================================== *)
(** ** The JavaScript primitives the engine calls                         *)
(* ===================================================================== *)

Module JS.

Definition isDigit (c : ascii) : bool :=
  let n := nat_of_ascii c in (48 <=? n)%nat && (n <=? 57)%nat.

Definition digitVal (c : ascii) : Z := Z.of_nat (nat_of_ascii c) - 48.

(** Value of [c] as a digit of the given radix (10 or 16), if it is one. *)
Definition radixDigit (radix : Z) (c : ascii) : option Z :=
  let n := Z.of_nat (nat_of_ascii c) in
  if (48 <=? n) && (n <=? 57) then Some (n - 48)
  else if (radix =? 16) && (97 <=? n) && (n <=? 102) then Some (n - 87)
  else if (radix =? 16) && (65 <=? n) && (n <=? 70) then Some (n - 55)
  else None.

(** The ASCII part of the white space [parseInt] and [trim] skip:
    TAB, LF, VT, FF, CR and SPACE. *)
Definition isWhiteSpace (c : ascii) : bool :=
  let n := nat_of_ascii c in
  ((9 <=? n)%nat && (n <=? 13)%nat) || (n =? 32)%nat.

Fixpoint skipWhiteSpace (s : string) : string :=
  match s with
  | String c s' => if isWhiteSpace c then skipWhiteSpace s' else s
  | EmptyString => s
  end.

(** Longest prefix of digits, accumulated left to right; [None] when the
    prefix is empty. *)
Fixpoint digitsPrefix (radix : Z) (acc : option Z) (s : string) : option Z :=
  match s with
  | String c s' =>
      match radixDigit radix c with
      | Some d =>
          digitsPrefix radix
            (Some (match acc with Some a => a * radix + d | None => d end)) s'
      | None => acc
      end
  | EmptyString => acc
  end.

Definition stripHexPrefix (s : string) : option string :=
  match s with
  | String "0" (String "x" s') => Some s'
  | String "0" (String "X" s') => Some s'
  | _ => None
  end.

(** [parseInt(s)] with no radix argument; [None] stands for [NaN]. *)
Definition parseInt (s : string) : option Z :=
  let s1 := skipWhiteSpace s in
  let '(sign, s2) :=
    match s1 with
    | String "-" r => (-1, r)
    | String "+" r => (1, r)
    | _ => (1, s1)
    end in
  let mag :=
    match stripHexPrefix s2 with
    | Some r => digitsPrefix 16 None r
    | None => digitsPrefix 10 None s2
    end in
  option_map (Z.mul sign) mag.

(** [n.toString()] of an integral number. *)
Definition Number_toString (n : Z) : string :=
  NilZero.string_of_int (Z.to_int n).

(** [(x).toString()] where [x] may be [NaN]. *)
Definition toString (x : option Z) : string :=
  match x with
  | Some n => Number_toString n
  | None => "NaN"%string
  end.

(** [s.padStart(2, '0')]. *)
Definition padStart2 (s : string) : string :=
  match String.length s with
  | O => "00"%string
  | S O => String "0" s
  | _ => s
  end.

(** [x || d] on numbers: [NaN] and [0] are falsy. *)
Definition orElse (x : option Z) (d : Z) : Z :=
  match x with
  | Some n => if n =? 0 then d else n
  | None => d
  end.

Definition msPerDay : Z := 24 * 60 * 60 * 1000.

(** Day number (days since 1970-01-01) of a proleptic Gregorian date,
    [m] in 1..12; any integer [d] is accepted and counts on from the
    first of the month. *)
Definition daysFromCivil (y m d : Z) : Z :=
  let y' := if m <=? 2 then y - 1 else y in
  let era := y' / 400 in
  let yoe := y' - era * 400 in
  let mp := (m + 9) mod 12 in
  let doy := (153 * mp + 2) / 5 + d - 1 in
  let doe := yoe * 365 + yoe / 4 - yoe / 100 + doy in
  era * 146097 + doe - 719468.

(** Inverse of [daysFromCivil]: year, month (1..12), day of month. *)
Definition civilFromDays (z : Z) : Z * Z * Z :=
  let z' := z + 719468 in
  let era := z' / 146097 in
  let doe := z' - era * 146097 in
  let yoe := (doe - doe / 1460 + doe / 36524 - doe / 146096) / 365 in
  let doy := doe - (365 * yoe + yoe / 4 - yoe / 100) in
  let mp := (5 * doy + 2) / 153 in
  let d := doy - (153 * mp + 2) / 5 + 1 in
  let m := if mp <? 10 then mp + 3 else mp - 9 in
  (yoe + era * 400 + (if m <=? 2 then 1 else 0), m, d).

Definition daysInMonth (y m : Z) : Z :=
  daysFromCivil (if m =? 12 then y + 1 else y) (if m =? 12 then 1 else m + 1) 1
  - daysFromCivil y m 1.

(** [new Date(year, monthIndex, day).getTime()]: the arguments are local
    time, months and days overflow into the neighbouring ones, and a year
    0..99 means 1900 + year.  [tz] is local time minus UTC in ms. *)
Definition Date_local (year monthIndex day tz : Z) : Z :=
  let yr := if (0 <=? year) && (year <=? 99) then 1900 + year else year in
  let ym := yr + monthIndex / 12 in
  let mn := monthIndex mod 12 in
  (daysFromCivil ym (mn + 1) 1 + (day - 1)) * msPerDay - tz.

(** The shape [YYYY-MM-DD] (regular expression [^\d{4}-\d{2}-\d{2}$])
    and the three numbers in it. *)
Definition matchDate (s : string) : option (Z * Z * Z) :=
  match list_ascii_of_string s with
  | [y1; y2; y3; y4; s1; m1; m2; s2; d1; d2] =>
      if forallb isDigit [y1; y2; y3; y4; m1; m2; d1; d2]
         && Ascii.eqb s1 "-" && Ascii.eqb s2 "-"
      then Some (((digitVal y1 * 10 + digitVal y2) * 10 + digitVal y3) * 10
                   + digitVal y4,
                 digitVal m1 * 10 + digitVal m2,
                 digitVal d1 * 10 + digitVal d2)
      else None
  | _ => None
  end.

(** [new Date(s).getTime()] for a date-only ISO string.  ECMAScript reads
    the date-only form [YYYY-MM-DD] as midnight UTC, whatever the local
    time zone.  [None] stands for [NaN]; strings outside the date-only
    form, or naming a day that the month does not have, are not modelled
    and also give [None]. *)
Definition Date_parse (s : string) : option Z :=
  match matchDate s with
  | Some (y, m, d) =>
      if (1 <=? m) && (m <=? 12) && (1 <=? d) && (d <=? daysInMonth y m)
      then Some (daysFromCivil y m d * msPerDay)
      else None
  | None => None
  end.

(** [new Date(now).setHours(0,0,0,0)]: local midnight of the day of [now]. *)
Definition startOfLocalDay (now tz : Z) : Z :=
  (now + tz) / msPerDay * msPerDay - tz.

(** [getFullYear()], [getMonth()+1] and [getDate()] of [new Date(t)]. *)
Definition localYMD (t tz : Z) : Z * Z * Z :=
  civilFromDays ((t + tz) / msPerDay).

End JS.

(* ===================================================================== *)
(** ** Data model (types of App.tsx, lines 31-66)                         *)
(* ===================================================================== *)

Inductive Mode : Type := stopwatch | timer.

(** [Mode | 'manual' | 'adjustment'], the [mode] of a history item. *)
Inductive HistoryMode : Type := hStopwatch | hTimer | hManual | hAdjustment.

Definition ofMode (m : Mode) : HistoryMode :=
  match m with stopwatch => hStopwatch | timer => hTimer end.

Inductive GoalPeriod : Type := daily | weekly | monthly | custom.

Inductive AdjustType : Type := add | remove.

Module Habit.
Record t : Type := mk {
  id : string;
  name : string;
  category : option string;
  color : string;
  selectedMode : Mode;
  timerDuration : Z;
  timerInput : string;
  elapsed : Z;
  isRunning : bool;
  streak : Z;
  lastLogDate : string
}.

(** [{...h, field: v}] for the fields the engine writes. *)
Definition set_selectedMode (v : Mode) (h : t) : t :=
  mk (id h) (name h) (category h) (color h) v (timerDuration h)
     (timerInput h) (elapsed h) (isRunning h) (streak h) (lastLogDate h).
Definition set_timerDuration (v : Z) (h : t) : t :=
  mk (id h) (name h) (category h) (color h) (selectedMode h) v
     (timerInput h) (elapsed h) (isRunning h) (streak h) (lastLogDate h).
Definition set_timerInput (v : string) (h : t) : t :=
  mk (id h) (name h) (category h) (color h) (selectedMode h) (timerDuration h)
     v (elapsed h) (isRunning h) (streak h) (lastLogDate h).
Definition set_elapsed (v : Z) (h : t) : t :=
  mk (id h) (name h) (category h) (color h) (selectedMode h) (timerDuration h)
     (timerInput h) v (isRunning h) (streak h) (lastLogDate h).
Definition set_isRunning (v : bool) (h : t) : t :=
  mk (id h) (name h) (category h) (color h) (selectedMode h) (timerDuration h)
     (timerInput h) (elapsed h) v (streak h) (lastLogDate h).
Definition set_streak (v : Z) (h : t) : t :=
  mk (id h) (name h) (category h) (color h) (selectedMode h) (timerDuration h)
     (timerInput h) (elapsed h) (isRunning h) v (lastLogDate h).
Definition set_lastLogDate (v : string) (h : t) : t :=
  mk (id h) (name h) (category h) (color h) (selectedMode h) (timerDuration h)
     (timerInput h) (elapsed h) (isRunning h) (streak h) v.
End Habit.

Module HistoryItem.
Record t : Type := mk {
  id : string;
  habitName : string;
  duration : Z;
  mode : HistoryMode;
  timestampMs : Z;
  color : string
}.
End HistoryItem.

Module Goal.
Record t : Type := mk {
  habitId : string;
  targetMinutes : Z;
  period : GoalPeriod;
  startDate : option string;
  endDate : option string
}.
End Goal.

(** The engine state: the three [useState] cells and [isDraggingRef]. *)
Record State : Type := mkState {
  habits : list Habit.t;
  history : list HistoryItem.t;
  goals : list Goal.t;
  isDragging : bool
}.

Definition setHabits (f : list Habit.t -> list Habit.t) (st : State) : State :=
  mkState (f (habits st)) (history st) (goals st) (isDragging st).
Definition setHistory (f : list HistoryItem.t -> list HistoryItem.t) (st : State) : State :=
  mkState (habits st) (f (history st)) (goals st) (isDragging st).
Definition setGoals (f : list Goal.t -> list Goal.t) (st : State) : State :=
  mkState (habits st) (history st) (f (goals st)) (isDragging st).
Definition setDragging (b : bool) (st : State) : State :=
  mkState (habits st) (history st) (goals st) b.

(** What one event handler reads from outside the engine. *)
Record Env : Type := mkEnv {
  now : Z;          (* Date.now(), epoch milliseconds *)
  tz : Z;           (* local time minus UTC, milliseconds *)
  random : string   (* the text of Math.random() *)
}.

(* ===================================================================== *)
(** ** Engine operations                                                  *)
(* ===================================================================== *)

(** [getTodayString] (lines 315-318): the local calendar date of the
    clock, as [YYYY-MM-DD]. *)
Definition getTodayString (e : Env) : string :=
  let '(y, m, d) := JS.localYMD (now e) (tz e) in
  (JS.Number_toString y ++ "-" ++ JS.padStart2 (JS.Number_toString m)
     ++ "-" ++ JS.padStart2 (JS.Number_toString d))%string.

(** The same text for an arbitrary instant [t]: the local calendar date on
    which [t] falls. *)
Definition localDateOf (t tzv : Z) : string :=
  getTodayString (mkEnv t tzv EmptyString).

(** The habit updater inside [saveSession] (lines 332-338). *)
Definition logStreak (name : string) (duration : Z) (dateStr : string)
    (h : Habit.t) : Habit.t :=
  if (Habit.name h =? name)%string && (0 <? duration) then
    let newStreak :=
      if (Habit.lastLogDate h =? dateStr)%string
      then Habit.streak h else Habit.streak h + 1 in
    Habit.set_lastLogDate dateStr (Habit.set_streak newStreak h)
  else h.

(** [timestamp || Date.now()]: a missing, zero or NaN time stamp is falsy. *)
Definition stampOr (timestamp : option Z) (e : Env) : Z :=
  JS.orElse timestamp (now e).

(** [saveSession] (lines 329-348). *)
Definition saveSession (e : Env) (name : string) (duration : Z)
    (mode : HistoryMode) (color : string) (timestamp : option Z)
    (st : State) : State :=
  if duration =? 0 then st
  else
    let dateStr := getTodayString e in
    let st1 := setHabits (map (logStreak name duration dateStr)) st in
    setHistory
      (fun prev =>
         HistoryItem.mk (JS.Number_toString (now e) ++ random e)%string
           name duration mode (stampOr timestamp e) color :: prev)
      st1.

(** One habit under the interval callback (lines 400-410). *)
Definition tickHabit (habit : Habit.t) : Habit.t :=
  if Habit.isRunning habit then
    match Habit.selectedMode habit with
    | timer =>
        let totalTime := Habit.elapsed habit + 1 in
        if totalTime >=? Habit.timerDuration habit
        then Habit.set_elapsed 0 (Habit.set_isRunning false habit)
        else Habit.set_elapsed totalTime habit
    | stopwatch => Habit.set_elapsed (Habit.elapsed habit + 1) habit
    end
  else habit.

(** The interval callback (lines 395-412), one firing. *)
Definition tick (st : State) : State :=
  if isDragging st then st
  else if existsb Habit.isRunning (habits st)
       then setHabits (map tickHabit) st
       else st.

(** The value [toggleRunHabit]'s updater returns for one habit
    (lines 441-454). *)
Definition toggleHabit (id : string) (h : Habit.t) : Habit.t :=
  if (Habit.id h =? id)%string then
    if Habit.isRunning h then
      Habit.set_elapsed 0 (Habit.set_isRunning false h)
    else
      let duration :=
        match Habit.selectedMode h with
        | timer => JS.orElse (JS.parseInt (Habit.timerInput h)) 1 * 60
        | stopwatch => Habit.timerDuration h
        end in
      Habit.set_timerDuration duration (Habit.set_isRunning true h)
  else h.

(** The call of [saveSession] that the same updater makes for one habit
    (line 443). *)
Definition toggleEffect (e : Env) (id : string) (h : Habit.t)
    (st : State) : State :=
  if (Habit.id h =? id)%string && Habit.isRunning h
  then saveSession e (Habit.name h) (Habit.elapsed h)
         (ofMode (Habit.selectedMode h)) (Habit.color h) None st
  else st.

(** [toggleRunHabit] (lines 439-456).  The updater maps over the previous
    habits; the updaters that its calls of [saveSession] queue run after it,
    in the order of the habits. *)
Definition toggleRunHabit (e : Env) (id : string) (st : State) : State :=
  fold_left (fun s h => toggleEffect e id h s) (habits st)
    (setHabits (map (toggleHabit id)) st).

(** [deleteHabit] (lines 458-466) once the dialog is answered "Ja". *)
Definition deleteHabit (id : string) (st : State) : State :=
  setGoals (filter (fun g => negb (Goal.habitId g =? id)%string))
    (setHabits (filter (fun h => negb (Habit.id h =? id)%string)) st).

(** [incrementTimer] and [decrementTimer] (lines 468-474). *)
Definition incrementTimer (id : string) (st : State) : State :=
  setHabits
    (map (fun h =>
       if (Habit.id h =? id)%string
       then Habit.set_timerInput
              (JS.toString
                 (option_map (fun n => n + 1) (JS.parseInt (Habit.timerInput h)))) h
       else h)) st.

Definition decrementTimer (id : string) (st : State) : State :=
  setHabits
    (map (fun h =>
       if (Habit.id h =? id)%string
       then Habit.set_timerInput
              (JS.toString
                 (option_map (fun n => Z.max 1 (n - 1))
                    (JS.parseInt (Habit.timerInput h)))) h
       else h)) st.

(** [switchMode] (lines 476-478). *)
Definition switchMode (id : string) (newMode : Mode) (st : State) : State :=
  setHabits
    (map (fun h =>
       if (Habit.id h =? id)%string
       then Habit.set_isRunning false
              (Habit.set_elapsed 0 (Habit.set_selectedMode newMode h))
       else h)) st.

(** [saveManualLog] (lines 480-491); the arguments are the modal's fields
    [manualHabitId], [manualDate] and [manualMinutes]. *)
Definition saveManualLog (e : Env) (manualHabitId : option string)
    (manualDate manualMinutes : string) (st : State) : State :=
  match manualHabitId with
  | None => st
  | Some hid =>
      match find (fun h => (Habit.id h =? hid)%string) (habits st) with
      | None => st
      | Some habit =>
          match JS.parseInt manualMinutes with
          | None => st
          | Some mins =>
              if mins <=? 0 then st
              else
                match JS.matchDate manualDate with
                | None => st
                | Some (y, m, d) =>
                    let logDate := JS.Date_local y (m - 1) d (tz e) in
                    saveSession e (Habit.name habit) (mins * 60) hManual
                      (Habit.color habit) (Some logDate) st
                end
          end
      end
  end.

(** [saveAdjustment] (lines 498-505); the arguments are the modal's fields
    [adjustHabitName], [adjustHabitColor], [adjustMinutes], [adjustType]. *)
Definition saveAdjustment (e : Env) (adjustHabitName adjustHabitColor
    adjustMinutes : string) (adjustType : AdjustType) (st : State) : State :=
  match JS.parseInt adjustMinutes with
  | Some mins =>
      if 0 <? mins then
        let seconds := mins * 60 in
        saveSession e adjustHabitName
          (match adjustType with add => seconds | remove => - seconds end)
          hAdjustment adjustHabitColor None st
      else st
  | None => st
  end.

(** A string used as a condition: empty is falsy. *)
Definition truthy (s : option string) : bool :=
  match s with
  | Some s' => negb (s' =? EmptyString)%string
  | None => false
  end.

(** [goalPeriod === 'custom']. *)
Definition isCustom (p : GoalPeriod) : bool :=
  match p with custom => true | _ => false end.

(** [saveGoal] (lines 524-538); the arguments are the modal's fields.  The
    new goal replaces the habit's goal, if any, and goes to the end. *)
Definition saveGoal (goalHabitId : option string) (goalTarget : string)
    (goalPeriod : GoalPeriod) (goalStartDate goalEndDate : string)
    (st : State) : State :=
  match goalHabitId with
  | None => st
  | Some hid =>
      if negb (truthy (Some hid)) then st
      else
        match JS.parseInt goalTarget with
        | Some mins =>
            if 0 <? mins then
              if isCustom goalPeriod
                 && (negb (truthy (Some goalStartDate))
                     || negb (truthy (Some goalEndDate)))
              then st
              else
                setGoals (fun prev =>
                  filter (fun g => negb (Goal.habitId g =? hid)%string) prev
                  ++ [Goal.mk hid mins goalPeriod
                        (Some goalStartDate) (Some goalEndDate)]) st
            else st
        | None => st
        end
  end.

(** The predicate of the filter in [getGoalProgress] (lines 544-558).  A
    comparison with [NaN] is false. *)
Definition inGoalWindow (e : Env) (hs : list Habit.t) (habitId : string)
    (goal : Goal.t) (item : HistoryItem.t) : bool :=
  let oneDay := 24 * 60 * 60 * 1000 in
  match find (fun h => (Habit.id h =? habitId)%string) hs with
  | None => false
  | Some habit =>
      if negb (HistoryItem.habitName item =? Habit.name habit)%string then false
      else
        match Goal.period goal with
        | daily =>
            HistoryItem.timestampMs item >=? JS.startOfLocalDay (now e) (tz e)
        | weekly => now e - HistoryItem.timestampMs item <? 7 * oneDay
        | monthly => now e - HistoryItem.timestampMs item <? 30 * oneDay
        | custom =>
            if truthy (Goal.startDate goal) && truthy (Goal.endDate goal) then
              match Goal.startDate goal, Goal.endDate goal with
              | Some sd, Some ed =>
                  match JS.Date_parse sd, JS.Date_parse ed with
                  | Some start, Some endDay =>
                      let end_ := endDay + oneDay in
                      (HistoryItem.timestampMs item >=? start)
                      && (HistoryItem.timestampMs item <? end_)
                  | _, _ => false
                  end
              | _, _ => false
              end
            else false
        end
  end.

(** [getGoalProgress] (lines 540-562): filter, [reduce] from 0, floor of
    the quotient by 60. *)
Definition getGoalProgress (e : Env) (habitId : string) (goal : Goal.t)
    (st : State) : Z :=
  let filtered := filter (inGoalWindow e (habits st) habitId goal) (history st) in
  let total :=
    fold_left (fun acc curr => acc + HistoryItem.duration curr) filtered 0 in
  total / 60.

(** [onDragBegin] and [onDragEnd] of the list (lines 683-684). *)
Definition onDragBegin (st : State) : State := setDragging true st.

Definition onDragEnd (data : list Habit.t) (st : State) : State :=
  setDragging false (setHabits (fun _ => data) st).

(** The commands of the engine and their dispatch. *)
Inductive Command : Type :=
| Tick
| ToggleRun (id : string)
| Delete (id : string)
| Increment (id : string)
| Decrement (id : string)
| SwitchMode (id : string) (newMode : Mode)
| ManualLog (manualHabitId : option string) (manualDate manualMinutes : string)
| Adjust (habitName color minutes : string) (adjustType : AdjustType)
| SaveGoal (goalHabitId : option string) (goalTarget : string)
    (goalPeriod : GoalPeriod) (goalStartDate goalEndDate : string)
| DragBegin
| DragEnd (data : list Habit.t).

Definition step (e : Env) (c : Command) (st : State) : State :=
  match c with
  | Tick => tick st
  | ToggleRun id => toggleRunHabit e id st
  | Delete id => deleteHabit id st
  | Increment id => incrementTimer id st
  | Decrement id => decrementTimer id st
  | SwitchMode id m => switchMode id m st
  | ManualLog hid d m => saveManualLog e hid d m st
  | Adjust n c m t => saveAdjustment e n c m t st
  | SaveGoal hid t p s d => saveGoal hid t p s d st
  | DragBegin => onDragBegin st
  | DragEnd data => onDragEnd data st
  end.

(** A run: each command with the environment it executes in. *)
Definition run (evs : list (Env * Command)) (st : State) : State :=
  fold_left (fun s ec => step (fst ec) (snd ec) s) evs st.

(** [n] firings of the interval callback. *)
Definition ticks (n : nat) (st : State) : State := Nat.iter n tick st.

(* ===================================================================== *)
(** ** Properties and specification-side definitions                      *)
(* ===================================================================== *)

(** The streak rule as the specification words it (section 4.3): a
    completion on date [completionDate] applied to habit [h]. *)
Definition streakAfterCompletion (completionDate : string) (h : Habit.t)
    : Habit.t :=
  Habit.set_lastLogDate completionDate
    (Habit.set_streak
       (if (Habit.lastLogDate h =? completionDate)%string
        then Habit.streak h else Habit.streak h + 1) h).

(** The rule applied to the habits called [name], the others untouched. *)
Definition completeNamed (name completionDate : string)
    (hs : list Habit.t) : list Habit.t :=
  map (fun h => if (Habit.name h =? name)%string
                then streakAfterCompletion completionDate h else h) hs.

(** The local calendar date of a ledger record. *)
Definition recordDate (tzv : Z) (r : HistoryItem.t) : string :=
  localDateOf (HistoryItem.timestampMs r) tzv.

(** The window of a goal as [getGoalProgress] decides it, on time stamps
    alone. *)
Definition goalWindow (e : Env) (goal : Goal.t) (t : Z) : bool :=
  match Goal.period goal with
  | daily => JS.startOfLocalDay (now e) (tz e) <=? t
  | weekly => now e - 7 * JS.msPerDay <? t
  | monthly => now e - 30 * JS.msPerDay <? t
  | custom =>
      match Goal.startDate goal, Goal.endDate goal with
      | Some sd, Some ed =>
          match JS.Date_parse sd, JS.Date_parse ed with
          | Some start, Some endDay =>
              negb (sd =? EmptyString)%string && negb (ed =? EmptyString)%string
              && (start <=? t) && (t <? endDay + JS.msPerDay)
          | _, _ => false
          end
      | _, _ => false
      end
  end.

(** Sum of the signed durations of the records that [keep] selects. *)
Fixpoint signedSeconds (keep : HistoryItem.t -> bool)
    (ledger : list HistoryItem.t) : Z :=
  match ledger with
  | [] => 0
  | r :: rest =>
      (if keep r then HistoryItem.duration r else 0) + signedSeconds keep rest
  end.

(** Goal progress in the specification's words (section 4.4): the signed
    seconds of the records that carry the habit's current name and fall in
    the goal's window, in whole minutes, rounded down. *)
Definition progressSpec (e : Env) (habitId : string) (goal : Goal.t)
    (st : State) : Z :=
  match find (fun h => (Habit.id h =? habitId)%string) (habits st) with
  | None => 0
  | Some habit =>
      signedSeconds
        (fun r => (HistoryItem.habitName r =? Habit.name habit)%string
                  && goalWindow e goal (HistoryItem.timestampMs r))
        (history st) / 60
  end.



(** A countdown habit has not run past its target. *)
Definition countdownBounded (h : Habit.t) : Prop :=
  Habit.selectedMode h = timer ->
  0 <= Habit.timerDuration h /\ 0 <= Habit.elapsed h <= Habit.timerDuration h.

(** The habits other than [h] in [l1 ++ h :: l2] have other ids. *)
Definition onlyId (l1 : list Habit.t) (h : Habit.t) (l2 : list Habit.t) : Prop :=
  forall x, In x (l1 ++ l2) -> Habit.id x <> Habit.id h.

(** *** Concrete data for the scenarios *)

(** A habit as [addNewHabit] creates it (lines 420-432). *)
Definition newHabit (id name color : string) : Habit.t :=
  Habit.mk id name (Some EmptyString) color stopwatch 60 "1" 0 false 0 EmptyString.

Definition reading : Habit.t := newHabit "1" "Reading" "#3498db".

(** "Meditate" switched to the countdown with ten minutes dialled in. *)
Definition meditate : Habit.t :=
  Habit.set_timerInput "10" (Habit.set_selectedMode timer
    (newHabit "2" "Meditate" "#2ecc71")).

(** 2024-06-01 12:00:00 UTC, local time UTC. *)
Definition juneNoon : Env := mkEnv 1717243200000 0 "0.5".

(** 2024-01-05 12:00:00 in a zone one hour east of UTC. *)
Definition januaryEast : Env := mkEnv 1704452400000 3600000 "0.5".

Definition emptyState : State := mkState [] [] [] false.

Definition goalJan1to3 : Goal.t :=
  Goal.mk "1" 60 custom (Some "2024-01-01"%string) (Some "2024-01-03"%string).

(* ===================================================================== *)
(** ** The rest of the component                                          *)
(* ===================================================================== *)

(** [${n<10?'0':''}${n}], the two-digit fields of [formatTime]. *)
Definition twoDigits (n : Z) : string :=
  String.append (if n <? 10 then "0"%string else EmptyString)
    (JS.Number_toString n).

(** [formatTime] (lines 320-327). *)
Definition formatTime (s : Z) : string :=
  let abs := Z.abs s in
  let hrs := abs / 3600 in
  let mins := (abs mod 3600) / 60 in
  let secs := abs mod 60 in
  let t :=
    if 0 <? hrs
    then (JS.Number_toString hrs ++ ":" ++ twoDigits mins ++ ":"
            ++ twoDigits secs)%string
    else (twoDigits mins ++ ":" ++ twoDigits secs)%string in
  if s <? 0 then String "-" t else t.

(** The time shown on a habit's card (lines 585-588). *)
Definition displayTime (item : Habit.t) : string :=
  match Habit.selectedMode item, Habit.isRunning item with
  | timer, false => EmptyString
  | timer, true =>
      formatTime (Z.max 0 (Habit.timerDuration item - Habit.elapsed item))
  | stopwatch, _ => formatTime (Habit.elapsed item)
  end.

Inductive FilterType : Type := today | week | month | all.

(** [getFilteredHistory] (lines 564-574); [statsFilter] is the selected
    filter. *)
Definition getFilteredHistory (e : Env) (statsFilter : FilterType)
    (st : State) : list HistoryItem.t :=
  let oneDay := 24 * 60 * 60 * 1000 in
  filter
    (fun item =>
       match statsFilter with
       | all => true
       | today =>
           HistoryItem.timestampMs item >=? JS.startOfLocalDay (now e) (tz e)
       | week => now e - HistoryItem.timestampMs item <? 7 * oneDay
       | month => now e - HistoryItem.timestampMs item <? 30 * oneDay
       end)
    (history st).





(** The goal shown for a habit in [renderGoalsView] (lines 768-769): the
    first goal that references it, and its progress, 0 without a goal. *)
Definition goalOf (habitId : string) (st : State) : option Goal.t :=
  find (fun g => (Goal.habitId g =? habitId)%string) (goals st).

Definition shownProgress (e : Env) (habit : Habit.t) (st : State) : Z :=
  match goalOf (Habit.id habit) st with
  | Some goal => getGoalProgress e (Habit.id habit) goal st
  | None => 0
  end.

Section Text.

(** [String.prototype.trim], taken as given: it is applied to text the
    user types, in any script. *)
Variable trim : string -> string.

(** [addNewHabit] (lines 416-437), the body of the delayed callback
    included; [rand1000] is [Math.floor(Math.random() * 1000)] and the
    arguments are the dialog's fields. *)
Definition addNewHabit (e : Env) (rand1000 : Z)
    (newHabitName newHabitCategory newHabitColor : string) (st : State)
    : State :=
  if (trim newHabitName =? EmptyString)%string then st
  else
    setHabits
      (fun prev =>
         Habit.mk
           (JS.Number_toString (now e) ++ JS.Number_toString rand1000)%string
           (trim newHabitName) (Some (trim newHabitCategory)) newHabitColor
           stopwatch 60 "1" 0 false 0 EmptyString :: prev)
      st.

(** [Array.from(new Set(xs))]: the first occurrence of each element, in
    order. *)
Fixpoint distinct (seen xs : list string) : list string :=
  match xs with
  | [] => []
  | x :: rest =>
      if existsb (String.eqb x) seen then distinct seen rest
      else x :: distinct (x :: seen) rest
  end.

(** [existingCategories] (lines 277-280). *)
Definition existingCategories (hs : list Habit.t) : list string :=
  let cats :=
    flat_map
      (fun h =>
         match Habit.category h with
         | Some c =>
             if negb (c =? EmptyString)%string
                && negb (trim c =? EmptyString)%string
             then [c] else []
         | None => []
         end) hs in
  distinct [] cats.

End Text.

(** [trim] on ASCII text: white space is dropped at both ends. *)
Fixpoint trimEndAscii (s : string) : string :=
  match s with
  | EmptyString => EmptyString
  | String c rest =>
      match trimEndAscii rest with
      | EmptyString => if JS.isWhiteSpace c then EmptyString
                       else String c EmptyString
      | kept => String c kept
      end
  end.

Definition trimAscii (s : string) : string :=
  trimEndAscii (JS.skipWhiteSpace s).

(** *** Well-formed states *)

(** What every habit the component creates satisfies, and every operation
    keeps: the clock is at zero unless the habit runs, the minutes field
    reads as a whole number of at least 1, the countdown length is at least
    a minute, and a running countdown is short of its length. *)
Definition habitOk (h : Habit.t) : Prop :=
  0 <= Habit.elapsed h
  /\ (Habit.isRunning h = false -> Habit.elapsed h = 0)
  /\ (exists n, 1 <= n /\ JS.parseInt (Habit.timerInput h) = Some n)
  /\ 60 <= Habit.timerDuration h
  /\ (Habit.selectedMode h = timer -> Habit.isRunning h = true ->
      Habit.elapsed h < Habit.timerDuration h).

(** Only an adjustment may carry a negative duration, and no record
    carries zero. *)
Definition recordOk (r : HistoryItem.t) : Prop :=
  0 < HistoryItem.duration r
  \/ (HistoryItem.mode r = hAdjustment /\ HistoryItem.duration r < 0).

Definition wellFormed (st : State) : Prop :=
  Forall habitOk (habits st) /\ Forall recordOk (history st).

(** A command whose payload is well formed: the list a drag hands back
    holds well-formed habits. *)
Definition commandOk (c : Command) : Prop :=
  match c with
  | DragEnd data => Forall habitOk data
  | _ => True
  end.


(** The habit after [n] seconds of ticking, in closed form. *)
Definition afterTicks (n : Z) (h : Habit.t) : Habit.t :=
  if Habit.isRunning h then
    match Habit.selectedMode h with
    | stopwatch => Habit.set_elapsed (Habit.elapsed h + n) h
    | timer =>
        if Habit.elapsed h + n <? Habit.timerDuration h
        then Habit.set_elapsed (Habit.elapsed h + n) h
        else Habit.set_elapsed 0 (Habit.set_isRunning false h)
    end
  else h.

(** The statistics filter that spans the same time as a goal period. *)
Definition filterOfPeriod (p : GoalPeriod) : option FilterType :=
  match p with
  | daily => Some today
  | weekly => Some week
  | monthly => Some month
  | custom => None
  end.

(** *** The statistics of [renderStatsView] (lines 704-713) *)

(** A stable sort: [x] is put in front of the first element that need not
    stay before it.  [Array.prototype.sort] is stable, so with
    [before y x] read as "the comparator puts [y] strictly first" this is
    its result. *)
Fixpoint insertSorted {A : Type} (before : A -> A -> bool) (x : A)
    (l : list A) : list A :=
  match l with
  | [] => [x]
  | y :: rest =>
      if before y x then y :: insertSorted before x rest else x :: y :: rest
  end.

Definition stableSort {A : Type} (before : A -> A -> bool) (l : list A)
    : list A :=
  fold_right (insertSorted before) [] l.

(** A property key that is an array index: the canonical decimal text of a
    whole number below 2^32 - 1.  [Object.keys] lists such keys first, in
    numeric order. *)
Definition arrayIndex (k : string) : option Z :=
  match k with
  | EmptyString => None
  | String c rest =>
      if forallb JS.isDigit (list_ascii_of_string k)
         && (negb (Ascii.eqb c "0") || (rest =? EmptyString)%string)
      then match JS.digitsPrefix 10 None k with
           | Some v => if v <? 4294967295 then Some v else None
           | None => None
           end
      else None
  end.

(** One row of the chart. *)
Record StatRow : Type := mkRow {
  rowName : string;
  totalSeconds : Z;
  rowColor : string
}.

(** The own properties of [statsMap], in the order of their creation. *)
Definition StatsMap : Type := list (string * (Z * string)).

(** [statsMap[k].seconds += d] when [k] is an own property, and
    [statsMap[k] = { seconds: d, color: c }] otherwise. *)
Fixpoint bumpEntry (k : string) (d : Z) (c : string) (m : StatsMap)
    : StatsMap :=
  match m with
  | [] => [(k, (d, c))]
  | (k', (s, c')) :: rest =>
      if (k' =? k)%string then (k', (s + d, c')) :: rest
      else (k', (s, c')) :: bumpEntry k d c rest
  end.

Section Stats.

(** The names that [Object.prototype] answers for ([toString],
    [constructor], ...), taken as given.  [statsMap[name]] is then an
    inherited function or object, which is truthy: the update lands on that
    object and [statsMap] gets no property of its own. *)
Variable inherited : string -> bool.

Definition statsMapOf (filteredHistory : list HistoryItem.t) : StatsMap :=
  fold_left
    (fun m item =>
       if inherited (HistoryItem.habitName item) then m
       else bumpEntry (HistoryItem.habitName item) (HistoryItem.duration item)
              (HistoryItem.color item) m)
    filteredHistory [].

Definition grandTotalSeconds (filteredHistory : list HistoryItem.t) : Z :=
  fold_left (fun t item => t + HistoryItem.duration item) filteredHistory 0.

(** [Object.keys(statsMap)] with the entry of each key: array indices in
    numeric order, then the other keys in the order of creation. *)
Definition objectEntries (m : StatsMap) : StatsMap :=
  stableSort
    (fun a b =>
       match arrayIndex (fst a), arrayIndex (fst b) with
       | Some i, Some j => i <? j
       | _, _ => false
       end)
    (filter (fun kv => match arrayIndex (fst kv) with
                       | Some _ => true | None => false end) m)
  ++ filter (fun kv => match arrayIndex (fst kv) with
                       | Some _ => false | None => true end) m.

(** [data]: one row per key, sorted by [b.totalSeconds - a.totalSeconds]. *)
Definition statsData (filteredHistory : list HistoryItem.t) : list StatRow :=
  stableSort (fun a b => totalSeconds b <? totalSeconds a)
    (map (fun kv => mkRow (fst kv) (fst (snd kv)) (snd (snd kv)))
       (objectEntries (statsMapOf filteredHistory))).

(** [maxVal]. *)
Definition maxVal (data : list StatRow) : Z :=
  match data with
  | first :: _ => Z.max 1 (totalSeconds first)
  | [] => 1
  end.

End Stats.

(** The property names of [Object.prototype] in today's engines. *)
Definition objectPrototypeNames : list string :=
  ["constructor"; "__defineGetter__"; "__defineSetter__"; "hasOwnProperty";
   "__lookupGetter__"; "__lookupSetter__"; "isPrototypeOf";
   "propertyIsEnumerable"; "toString"; "valueOf"; "__proto__";
   "toLocaleString"]%string.

Definition inheritedName (k : string) : bool :=
  existsb (String.eqb k) objectPrototypeNames.

(** Sum of the totals of the rows. *)
Definition sumRows (data : list StatRow) : Z :=
  fold_right (fun r t => totalSeconds r + t) 0 data.

(** *** [getCategoryColor] (lines 215-222) *)

(** [ToInt32]: a whole number taken modulo 2^32 into [-2^31, 2^31). *)
Definition toInt32 (z : Z) : Z := (z + 2147483648) mod 4294967296 - 2147483648.

(** [x << 5] on numbers. *)
Definition shiftLeft5 (x : Z) : Z := toInt32 (toInt32 x * 32).

Definition hexChar (d : Z) : ascii :=
  if d <? 10 then ascii_of_nat (Z.to_nat (48 + d))
  else ascii_of_nat (Z.to_nat (55 + d)).

(** The hexadecimal digits of [n], most significant first, in front of
    [acc]; [fuel] bounds the number of digits. *)
Fixpoint hexDigits (fuel : nat) (n : Z) (acc : string) : string :=
  match fuel with
  | O => acc
  | S fuel' =>
      let acc' := String (hexChar (n mod 16)) acc in
      if n / 16 =? 0 then acc' else hexDigits fuel' (n / 16) acc'
  end.

(** [n.toString(16).toUpperCase()] for a whole number [n >= 0]. *)
Definition toHexUpper (n : Z) : string :=
  hexDigits (S (Z.to_nat (Z.log2 n))) n EmptyString.

(** [s.substring(0, k)]. *)
Fixpoint firstChars (k : nat) (s : string) : string :=
  match k, s with
  | S k', String c rest => String c (firstChars k' rest)
  | _, _ => EmptyString
  end.

(** [getCategoryColor]; the argument is the list of the UTF-16 code units
    of [str], which is what [str.length] and [str.charCodeAt] read. *)
Definition getCategoryColor (codes : list Z) : string :=
  let hash :=
    fold_left (fun hash code => code + (shiftLeft5 hash - hash)) codes 0 in
  let c := toHexUpper (Z.land (toInt32 hash) 16777215) in
  String "#"
    (firstChars (6 - String.length c) "00000" ++ c)%string.

(** The code units of ASCII text. *)
Definition asciiCodes (s : string) : list Z :=
  map (fun c => Z.of_nat (nat_of_ascii c)) (list_ascii_of_string s).

Definition isHexUpper (c : ascii) : bool :=
  let n := nat_of_ascii c in
  ((48 <=? n)%nat && (n <=? 57)%nat) || ((65 <=? n)%nat && (n <=? 70)%nat).

(** *** Accounts and the user store (lines 69-86, 283-292, 351-391) *)

Module Auth.
Record t : Type := mk {
  username : string;
  password : string;
  fullName : string;
  age : string;
  email : string
}.
End Auth.

(** The [data] of a user. *)
Module Data.
Record t : Type := mk {
  habits : list Habit.t;
  history : list HistoryItem.t;
  goals : list Goal.t;
  themeId : string
}.
End Data.

Module UserData.
Record t : Type := mk {
  auth : Auth.t;
  data : Data.t
}.
End UserData.

(** The own properties of the object [USERS_DB]. *)
Definition UsersDb : Type := list (string * UserData.t).

(** What [USERS_DB[k]] is: a record stored under [k], something that
    [Object.prototype] answers with, or [undefined]. *)
Inductive Lookup : Type :=
| Own (user : UserData.t)
| Inherited
| Absent.

(** The ids of [THEMES] (lines 106-152); the colours are left out. *)
Definition themeIds : list string := ["light"; "dark"; "retro"]%string.

(** [THEMES.find(t => t.id === themeId) || THEMES[0]], by id. *)
Definition themeOrDefault (themeId : string) : string :=
  if existsb (String.eqb themeId) themeIds then themeId else "light"%string.

(** The component: the engine state, the theme and the login state, with
    the store beside it. *)
Record App : Type := mkApp {
  engine : State;
  currentTheme : string;             (* currentTheme.id *)
  isLoggedIn : bool;
  currentUser : option string;
  usersDb : UsersDb                  (* USERS_DB *)
}.

(** How a handler ends: normally, with one of the three alerts of the
    login screen, or with the exception of reading a property of
    [undefined]. *)
Inductive Outcome : Type :=
| Done
| AlertMissingFields     (* "Fel" *)
| AlertNameTaken         (* "Upptaget" *)
| AlertBadLogin          (* "Fel inloggning" *)
| ThrewTypeError.

(** [USERS_DB[k] = user]. *)
Fixpoint dbSet (db : UsersDb) (k : string) (user : UserData.t) : UsersDb :=
  match db with
  | [] => [(k, user)]
  | (k', u') :: rest =>
      if (k' =? k)%string then (k', user) :: rest
      else (k', u') :: dbSet rest k user
  end.

(** The engine state as the [data] of a user. *)
Definition snapshot (app : App) : Data.t :=
  Data.mk (habits (engine app)) (history (engine app)) (goals (engine app))
    (currentTheme app).

Section Accounts.

Variable trim : string -> string.

(** [String.prototype.toLowerCase], taken as given. *)
Variable toLowerCase : string -> string.

(** The names that [Object.prototype] answers for. *)
Variable inherited : string -> bool.

Definition dbGet (db : UsersDb) (k : string) : Lookup :=
  match find (fun kv => (fst kv =? k)%string) db with
  | Some kv => Own (snd kv)
  | None => if inherited k then Inherited else Absent
  end.

(** [USERS_DB[k].data = d] behind a test that [USERS_DB[k]] is truthy: on
    an inherited object the write does not reach the store. *)
Definition dbSetData (db : UsersDb) (k : string) (d : Data.t) : UsersDb :=
  match dbGet db k with
  | Own user => dbSet db k (UserData.mk (UserData.auth user) d)
  | Inherited | Absent => db
  end.

(** The persistence effect (lines 283-292), which runs after every render
    that changed the state. *)
Definition persist (app : App) : App :=
  match currentUser app with
  | Some user =>
      if negb (user =? EmptyString)%string && isLoggedIn app
      then mkApp (engine app) (currentTheme app) (isLoggedIn app)
             (currentUser app) (dbSetData (usersDb app) user (snapshot app))
      else app
  | None => app
  end.

(** [loadUserAndLogin] (lines 371-383). *)
Definition loadUserAndLogin (username : string) (app : App) : App * Outcome :=
  match dbGet (usersDb app) username with
  | Absent => (app, Done)
  | Inherited => (app, ThrewTypeError)
  | Own user =>
      let d := UserData.data user in
      (mkApp
         (mkState (Data.habits d) (Data.history d) (Data.goals d)
            (isDragging (engine app)))
         (themeOrDefault (Data.themeId d)) true (Some username) (usersDb app),
       Done)
  end.

(** [handleSignUp] (lines 351-361); the arguments are the fields of the
    form. *)
Definition handleSignUp (authName authPass authFullName authAge authEmail
    : string) (app : App) : App * Outcome :=
  let username := toLowerCase (trim authName) in
  let password := trim authPass in
  if (username =? EmptyString)%string || (password =? EmptyString)%string
  then (app, AlertMissingFields)
  else
    match dbGet (usersDb app) username with
    | Own _ | Inherited => (app, AlertNameTaken)
    | Absent =>
        loadUserAndLogin username
          (mkApp (engine app) (currentTheme app) (isLoggedIn app)
             (currentUser app)
             (dbSet (usersDb app) username
                (UserData.mk
                   (Auth.mk username password authFullName authAge authEmail)
                   (Data.mk [] [] [] "light"))))
    end.

(** [handleLogin] (lines 363-369). *)
Definition handleLogin (authName authPass : string) (app : App)
    : App * Outcome :=
  let username := toLowerCase (trim authName) in
  let password := trim authPass in
  match dbGet (usersDb app) username with
  | Own user =>
      if (Auth.password (UserData.auth user) =? password)%string
      then loadUserAndLogin username app
      else (app, AlertBadLogin)
  | Inherited => (app, ThrewTypeError)
  | Absent => (app, AlertBadLogin)
  end.

(** [handleLogout] (lines 385-391). *)
Definition handleLogout (app : App) : App :=
  let db :=
    match currentUser app with
    | Some user =>
        if negb (user =? EmptyString)%string
        then dbSetData (usersDb app) user (snapshot app)
        else usersDb app
    | None => usersDb app
    end in
  mkApp (mkState [] [] [] (isDragging (engine app))) "light" false None db.

(** An engine command in the component: the handler, then the effect. *)
Definition appStep (e : Env) (c : Command) (app : App) : App :=
  persist (mkApp (step e c (engine app)) (currentTheme app) (isLoggedIn app)
             (currentUser app) (usersDb app)).

(** [setCurrentTheme(t)] for the theme [t] of [THEMES] with the given id,
    then the effect. *)
Definition chooseTheme (themeId : string) (app : App) : App :=
  persist (mkApp (engine app) themeId (isLoggedIn app)
             (currentUser app) (usersDb app)).

End Accounts.

(** [toLowerCase] on ASCII text. *)
Definition toLowerAscii (s : string) : string :=
  string_of_list_ascii
    (map (fun c =>
            let n := nat_of_ascii c in
            if (65 <=? n)%nat && (n <=? 90)%nat then ascii_of_nat (n + 32) else c)
       (list_ascii_of_string s)).

(** A state with nobody logged in and an empty store. *)
Definition freshApp : App := mkApp emptyState "light" false None [].

(* ===================================================================== *)
(** ** The primitives on sample inputs                                    *)
(* ===================================================================== *)

Example parseInt_prefix : JS.parseInt " 42px" = Some 42.
Proof. reflexivity. Qed.

Example parseInt_hex : JS.parseInt "0x1f" = Some 31.
Proof. reflexivity. Qed.

Example parseInt_nan : JS.parseInt "abc" = None /\ JS.parseInt EmptyString = None.
Proof. split; reflexivity. Qed.

Example parseInt_negative : JS.parseInt "-7" = Some (-7).
Proof. reflexivity. Qed.

Example Date_parse_is_utc :
  JS.Date_parse "2024-01-01" = Some 1704067200000
  /\ JS.Date_local 2024 0 1 3600000 = 1704067200000 - 3600000.
Proof. split; reflexivity. Qed.

Example Date_local_overflows :
  JS.Date_local 2024 12 1 0 = JS.Date_local 2025 0 1 0
  /\ JS.Date_local 2024 1 30 0 = JS.Date_local 2024 2 1 0.
Proof. split; reflexivity. Qed.

Example localYMD_before_epoch : JS.localYMD (-1) 0 = (1969, 12, 31).
Proof. reflexivity. Qed.

Example getTodayString_samples :
  getTodayString juneNoon = "2024-06-01"%string
  /\ getTodayString januaryEast = "2024-01-05"%string
  /\ localDateOf (now januaryEast + 43200000 - 1) 3600000 = "2024-01-05"%string
  /\ localDateOf (now januaryEast + 43200000) 3600000 = "2024-01-06"%string.
Proof. repeat split; reflexivity. Qed.

(* ===================================================================== *)
(** ** Frame lemmas: what each operation leaves alone                     *)
(* ===================================================================== *)

Lemma saveSession_zero e name mode color timestamp st :
  saveSession e name 0 mode color timestamp st = st.
Proof. reflexivity. Qed.

Lemma saveSession_nonzero e name duration mode color timestamp st :
  duration <> 0 ->
  saveSession e name duration mode color timestamp st =
  mkState (map (logStreak name duration (getTodayString e)) (habits st))
    (HistoryItem.mk (JS.Number_toString (now e) ++ random e)%string
       name duration mode (stampOr timestamp e) color :: history st)
    (goals st) (isDragging st).
Proof.
  intros Hd. unfold saveSession.
  destruct (Z.eqb_spec duration 0) as [E | _]; [contradiction | reflexivity].
Qed.

Lemma saveSession_goals e name duration mode color timestamp st :
  goals (saveSession e name duration mode color timestamp st) = goals st.
Proof. unfold saveSession. destruct (duration =? 0); reflexivity. Qed.

Lemma saveSession_isDragging e name duration mode color timestamp st :
  isDragging (saveSession e name duration mode color timestamp st)
  = isDragging st.
Proof. unfold saveSession. destruct (duration =? 0); reflexivity. Qed.

(** The code's streak updater is the specification's rule applied to the
    habits of that name, and does nothing for a duration that is not
    positive. *)
Lemma logStreak_positive name duration dateStr h :
  0 < duration ->
  logStreak name duration dateStr h =
  if (Habit.name h =? name)%string then streakAfterCompletion dateStr h else h.
Proof.
  intros Hd. unfold logStreak, streakAfterCompletion.
  destruct (Z.ltb_spec 0 duration) as [_ | Hle]; [| lia].
  now rewrite andb_true_r.
Qed.

Lemma logStreak_not_positive name duration dateStr h :
  duration <= 0 -> logStreak name duration dateStr h = h.
Proof.
  intros Hd. unfold logStreak.
  destruct (Z.ltb_spec 0 duration) as [Hlt | _]; [lia |].
  now rewrite andb_false_r.
Qed.

Lemma map_logStreak_positive name duration dateStr hs :
  0 < duration ->
  map (logStreak name duration dateStr) hs = completeNamed name dateStr hs.
Proof.
  intros Hd. unfold completeNamed. apply map_ext.
  intros h. now apply logStreak_positive.
Qed.

Lemma map_logStreak_not_positive name duration dateStr hs :
  duration <= 0 -> map (logStreak name duration dateStr) hs = hs.
Proof.
  intros Hd. rewrite <- (map_id hs) at 2. apply map_ext.
  intros h. now apply logStreak_not_positive.
Qed.

(** Updating the habit with a given id, when the id occurs once. *)
Lemma map_only_id (f : Habit.t -> Habit.t) l1 h l2 :
  onlyId l1 h l2 ->
  map (fun x => if (Habit.id x =? Habit.id h)%string then f x else x)
      (l1 ++ h :: l2)
  = l1 ++ f h :: l2.
Proof.
  intros Hu.
  assert (Hfix : forall l, (forall x, In x l -> Habit.id x <> Habit.id h) ->
            map (fun x => if (Habit.id x =? Habit.id h)%string then f x else x) l = l).
  { induction l as [| a l IH]; intros Hl; simpl; [reflexivity |].
    destruct (String.eqb_spec (Habit.id a) (Habit.id h)) as [E | _].
    - exfalso. apply (Hl a); [now left | exact E].
    - f_equal. apply IH. intros x Hx. apply Hl. now right. }
  rewrite map_app. simpl. rewrite String.eqb_refl.
  rewrite !Hfix; [reflexivity | |];
    intros x Hx; apply Hu; apply in_or_app; [now right | now left].
Qed.

(* ===================================================================== *)
(** ** The interval callback                                              *)
(* ===================================================================== *)

(** A firing of the interval never writes the ledger or the goals. *)
Lemma tick_history st : history (tick st) = history st.
Proof.
  unfold tick. destruct (isDragging st); [reflexivity |].
  destruct (existsb Habit.isRunning (habits st)); reflexivity.
Qed.

Lemma tick_goals st : goals (tick st) = goals st.
Proof.
  unfold tick. destruct (isDragging st); [reflexivity |].
  destruct (existsb Habit.isRunning (habits st)); reflexivity.
Qed.

Lemma ticks_history n st : history (ticks n st) = history st.
Proof.
  induction n as [| n IH]; [reflexivity |].
  unfold ticks in *. simpl. now rewrite tick_history.
Qed.

(** When no habit runs the mapped list is the list itself, so the early
    return of the updater is not observable. *)
Lemma tickHabit_idle h : Habit.isRunning h = false -> tickHabit h = h.
Proof. intros H. unfold tickHabit. now rewrite H. Qed.

Lemma tick_habits st :
  isDragging st = false -> habits (tick st) = map tickHabit (habits st).
Proof.
  intros Hd. unfold tick. rewrite Hd.
  destruct (existsb Habit.isRunning (habits st)) eqn:E; [reflexivity |].
  simpl. rewrite <- (map_id (habits st)) at 1.
  apply map_ext_in. intros h Hin. symmetry. apply tickHabit_idle.
  destruct (Habit.isRunning h) eqn:R; [| reflexivity].
  assert (existsb Habit.isRunning (habits st) = true)
    by (apply existsb_exists; now exists h).
  congruence.
Qed.

(** The countdown step on one running habit: either the target is reached
    and the habit is idle at zero, or the elapsed time grew by one and is
    still short of the target. *)
Lemma tickHabit_countdown h :
  Habit.isRunning h = true -> Habit.selectedMode h = timer ->
  (Habit.elapsed h + 1 >= Habit.timerDuration h /\
   tickHabit h = Habit.set_elapsed 0 (Habit.set_isRunning false h))
  \/
  (Habit.elapsed h + 1 < Habit.timerDuration h /\
   tickHabit h = Habit.set_elapsed (Habit.elapsed h + 1) h).
Proof.
  intros Hr Hm. unfold tickHabit. rewrite Hr, Hm.
  destruct (Z.geb_spec (Habit.elapsed h + 1) (Habit.timerDuration h)) as [G | L].
  - left. split; [lia | reflexivity].
  - right. split; [lia | reflexivity].
Qed.

Lemma tickHabit_bounded h : countdownBounded h -> countdownBounded (tickHabit h).
Proof.
  intros Hb. destruct (Habit.isRunning h) eqn:Hr.
  - destruct (Habit.selectedMode h) eqn:Hm.
    + unfold tickHabit. rewrite Hr, Hm. intros Hc. simpl in Hc. congruence.
    + destruct (Hb Hm) as [Hd He].
      destruct (tickHabit_countdown h Hr Hm) as [[_ E] | [Hlt E]];
        rewrite E; intros _; simpl; lia.
  - now rewrite tickHabit_idle.
Qed.

Lemma tick_bounded st :
  Forall countdownBounded (habits st) ->
  Forall countdownBounded (habits (tick st)).
Proof.
  intros Hb. destruct (isDragging st) eqn:Hd.
  - unfold tick. now rewrite Hd.
  - rewrite tick_habits by exact Hd.
    apply Forall_map. eapply Forall_impl; [| exact Hb].
    intros h. apply tickHabit_bounded.
Qed.

(** X1.  Under any number of ticks a countdown never shows more elapsed
    time than its target. *)
Lemma ticks_bounded n st :
  Forall countdownBounded (habits st) ->
  Forall countdownBounded (habits (ticks n st)).
Proof.
  intros Hb. induction n as [| n IH]; [exact Hb |].
  unfold ticks in *. simpl. now apply tick_bounded.
Qed.

(** A countdown one second short of 600 and a stopwatch, both running,
    stay within bounds over 1000 ticks. *)
Lemma ticks_bounded_witness :
  Forall countdownBounded
    (habits (ticks 1000
       (mkState [Habit.set_elapsed 599 (Habit.set_timerDuration 600
                   (Habit.set_isRunning true meditate));
                 Habit.set_isRunning true reading] [] [] false))).
Proof.
  apply ticks_bounded.
  constructor; [| constructor; [| constructor]].
  - intros _. simpl. lia.
  - intros Hm. discriminate Hm.
Defined.

(** C1 (the code departs from the claim).  "Meditate", a countdown of
    600 seconds, is started and 600 ticks are delivered: the habit is idle
    again with zero elapsed time and nobody called stop, but the ledger is
    still empty and the streak is still 0.  The completing tick resets the
    habit without calling [saveSession]; the claim expects one record of
    600 seconds of kind countdown. *)
Theorem countdown_completion_commits_nothing :
  let started := toggleRunHabit juneNoon "2" (mkState [meditate] [] [] false) in
  habits started
    = [Habit.set_timerDuration 600 (Habit.set_isRunning true meditate)]
  /\ habits (ticks 599 started)
    = [Habit.set_elapsed 599
         (Habit.set_timerDuration 600 (Habit.set_isRunning true meditate))]
  /\ habits (ticks 600 started) = [Habit.set_timerDuration 600 meditate]
  /\ history (ticks 600 started) = [].
Proof. vm_compute. repeat split; reflexivity. Qed.

(* ===================================================================== *)
(** ** Start and stop                                                     *)
(* ===================================================================== *)

Lemma toggleEffect_other e id h st :
  Habit.id h <> id -> toggleEffect e id h st = st.
Proof.
  intros Hne. unfold toggleEffect.
  destruct (String.eqb_spec (Habit.id h) id); [contradiction | reflexivity].
Qed.

Lemma fold_toggleEffect_other e id l st :
  (forall x, In x l -> Habit.id x <> id) ->
  fold_left (fun s h => toggleEffect e id h s) l st = st.
Proof.
  revert st. induction l as [| a l IH]; intros st Hl; simpl; [reflexivity |].
  rewrite toggleEffect_other by (apply Hl; now left).
  apply IH. intros x Hx. apply Hl. now right.
Qed.

(** The stop branch and the start branch of the updater. *)
Lemma toggleHabit_running h :
  Habit.isRunning h = true ->
  toggleHabit (Habit.id h) h = Habit.set_elapsed 0 (Habit.set_isRunning false h).
Proof.
  intros Hr. unfold toggleHabit. now rewrite String.eqb_refl, Hr.
Qed.

(** [toggleRunHabit] on a running habit whose id occurs once: the habit
    goes idle at zero and exactly its own session is handed to
    [saveSession]. *)
Lemma toggleRunHabit_running e st l1 h l2 :
  habits st = l1 ++ h :: l2 -> onlyId l1 h l2 ->
  Habit.isRunning h = true ->
  toggleRunHabit e (Habit.id h) st =
  saveSession e (Habit.name h) (Habit.elapsed h)
    (ofMode (Habit.selectedMode h)) (Habit.color h) None
    (mkState (l1 ++ Habit.set_elapsed 0 (Habit.set_isRunning false h) :: l2)
       (history st) (goals st) (isDragging st)).
Proof.
  intros Hh Hu Hr. unfold toggleRunHabit.
  assert (Hmap : map (toggleHabit (Habit.id h)) (l1 ++ h :: l2)
                 = l1 ++ Habit.set_elapsed 0 (Habit.set_isRunning false h) :: l2).
  { rewrite <- (toggleHabit_running h Hr).
    rewrite <- (map_only_id (toggleHabit (Habit.id h)) l1 h l2 Hu).
    apply map_ext. intros x. unfold toggleHabit.
    destruct (Habit.id x =? Habit.id h)%string; reflexivity. }
  unfold setHabits. rewrite Hh, Hmap.
  rewrite fold_left_app. simpl.
  rewrite (fold_toggleEffect_other e (Habit.id h) l2)
    by (intros x Hx; apply Hu; apply in_or_app; now right).
  rewrite (fold_toggleEffect_other e (Habit.id h) l1)
    by (intros x Hx; apply Hu; apply in_or_app; now left).
  unfold toggleEffect. now rewrite String.eqb_refl, Hr.
Qed.

(** C2.  Stopping a running habit (ids are unique: its id occurs once in
    the list): with zero
    elapsed time the habit goes idle and the ledger is unchanged; with
    positive elapsed time the ledger gains exactly one record, of that
    duration and of the habit's mode, stamped now, and the habit goes idle
    with zero elapsed time (the streak rule having been applied to the
    habits of that name). *)
Theorem stop_logs_elapsed_once e st l1 h l2 :
  habits st = l1 ++ h :: l2 -> onlyId l1 h l2 ->
  Habit.isRunning h = true ->
  let st' := toggleRunHabit e (Habit.id h) st in
  let idle := Habit.set_elapsed 0 (Habit.set_isRunning false h) in
  let bump := logStreak (Habit.name h) (Habit.elapsed h) (getTodayString e) in
  (Habit.elapsed h = 0 ->
     history st' = history st /\ habits st' = l1 ++ idle :: l2)
  /\ (0 < Habit.elapsed h ->
     history st'
       = HistoryItem.mk (JS.Number_toString (now e) ++ random e)%string
           (Habit.name h) (Habit.elapsed h) (ofMode (Habit.selectedMode h))
           (now e) (Habit.color h) :: history st
     /\ habits st' = map bump l1 ++ bump idle :: map bump l2
     /\ Habit.isRunning (bump idle) = false
     /\ Habit.elapsed (bump idle) = 0
     /\ Habit.selectedMode (bump idle) = Habit.selectedMode h)
  /\ goals st' = goals st.
Proof.
  intros Hh Hu Hr st' idle bump. subst st'.
  rewrite (toggleRunHabit_running e st l1 h l2 Hh Hu Hr).
  fold idle. split; [| split].
  - intros Hz. rewrite Hz. split; reflexivity.
  - intros Hpos. rewrite saveSession_nonzero by lia.
    split; [reflexivity |]. split; [apply map_app |].
    subst bump idle. unfold logStreak. simpl.
    destruct ((Habit.name h =? Habit.name h)%string && (0 <? Habit.elapsed h));
      repeat split; reflexivity.
  - rewrite saveSession_goals. reflexivity.
Qed.

(** The scenario of C2: "Reading" (stopwatch) is started, 125 ticks are
    delivered, and it is stopped; the ledger holds one record of 125
    seconds of kind stopwatch and the streak went from 0 to 1. *)
Lemma stop_logs_elapsed_once_witness :
  let running := ticks 125 (toggleRunHabit juneNoon "1"
                              (mkState [reading] [] [] false)) in
  history (toggleRunHabit juneNoon "1" running)
    = [HistoryItem.mk "17172432000000.5" "Reading" 125 hStopwatch
         1717243200000 "#3498db"]
  /\ habits (toggleRunHabit juneNoon "1" running)
    = [Habit.set_lastLogDate "2024-06-01" (Habit.set_streak 1 reading)].
Proof.
  intros running.
  pose (h := Habit.set_elapsed 125 (Habit.set_isRunning true reading)).
  assert (Hh : habits running = [] ++ h :: []) by (vm_compute; reflexivity).
  assert (Hu : onlyId [] h []) by (intros x []).
  destruct (stop_logs_elapsed_once juneNoon running [] h [] Hh Hu eq_refl)
    as (_ & Hpos & _).
  destruct (Hpos eq_refl) as (Hhist & Hhab & _).
  split; [exact Hhist | exact Hhab].
Defined.

(* ===================================================================== *)
(** ** The streak rule                                                    *)
(* ===================================================================== *)

Lemma saveSession_habits e name duration mode color timestamp st :
  habits (saveSession e name duration mode color timestamp st)
  = if 0 <? duration
    then completeNamed name (getTodayString e) (habits st)
    else habits st.
Proof.
  unfold saveSession.
  destruct (Z.eqb_spec duration 0) as [E | N].
  - subst. reflexivity.
  - simpl. destruct (Z.ltb_spec 0 duration) as [P | NP].
    + now apply map_logStreak_positive.
    + apply map_logStreak_not_positive. lia.
Qed.

(** What the rule does to one habit, field by field. *)
Lemma streakAfterCompletion_same_day d h :
  Habit.lastLogDate h = d ->
  Habit.streak (streakAfterCompletion d h) = Habit.streak h
  /\ Habit.lastLogDate (streakAfterCompletion d h) = d.
Proof.
  intros E. unfold streakAfterCompletion. simpl.
  rewrite E, String.eqb_refl. now split.
Qed.

Lemma streakAfterCompletion_new_day d h :
  Habit.lastLogDate h <> d ->
  Habit.streak (streakAfterCompletion d h) = Habit.streak h + 1
  /\ Habit.lastLogDate (streakAfterCompletion d h) = d.
Proof.
  intros N. unfold streakAfterCompletion. simpl.
  destruct (String.eqb_spec (Habit.lastLogDate h) d); [contradiction |].
  now split.
Qed.

(** A session logged without a time stamp of its own (a stopped timer, an
    adjustment) is dated today: there the record's date and the date the
    streak rule uses are the same. *)
Lemma unstamped_record_dated_today e name duration mode color st r rest :
  history (saveSession e name duration mode color None st) = r :: rest ->
  duration <> 0 ->
  recordDate (tz e) r = getTodayString e.
Proof.
  intros Hh Hd. rewrite saveSession_nonzero in Hh by exact Hd.
  simpl in Hh. injection Hh as <- _. reflexivity.
Qed.

(** C3 as the claim states it fails: a manual entry of 30 minutes dated
    2024-01-01 is logged on 2024-06-01 for a habit whose last completion
    date is 2024-06-01.  The record falls on 2024-01-01, which is not the
    habit's last completion date, so the claim expects the streak to go
    from 3 to 4 and the last completion date to become 2024-01-01; the code
    compares with, and stores, the date of logging, and the habit is
    unchanged. *)
Lemma backdated_manual_log_counterexample :
  let h := Habit.set_lastLogDate "2024-06-01" (Habit.set_streak 3 reading) in
  let st' := saveManualLog juneNoon (Some "1"%string) "2024-01-01" "30"
               (mkState [h] [] [] false) in
  exists r,
    history st' = [r]
    /\ HistoryItem.habitName r = Habit.name h
    /\ HistoryItem.duration r = 1800
    /\ recordDate (tz juneNoon) r = "2024-01-01"%string
    /\ recordDate (tz juneNoon) r <> Habit.lastLogDate h
    /\ habits st' = [h]
    /\ habits st' <> [streakAfterCompletion (recordDate (tz juneNoon) r) h].
Proof.
  intros h st'.
  exists (HistoryItem.mk "17172432000000.5" "Reading" 1800 hManual
            1704067200000 "#3498db").
  repeat split; try (vm_compute; reflexivity); vm_compute; discriminate.
Qed.

(** C3, amended.  For every session handed to [saveSession]: when the
    duration is positive, every habit of that name gets the streak rule
    applied with the local calendar date of the moment of logging (today),
    whatever time stamp the record carries: same date, streak unchanged;
    other date, streak plus one whatever the gap; the last completion date
    becomes today.  A session logged without a time stamp of its own is
    dated today, so there the record's date and the date of the rule agree.
    When the duration is not positive the habits are unchanged, and so a
    removing adjustment never changes a streak or a last completion date. *)
Theorem streak_follows_logging_date e name duration mode color timestamp
    adjColor adjMinutes st :
  habits (saveSession e name duration mode color timestamp st)
    = (if 0 <? duration
       then completeNamed name (getTodayString e) (habits st)
       else habits st)
  /\ map (recordDate (tz e))
       (history (saveSession e name duration mode color None st))
     = ((if duration =? 0 then [] else [getTodayString e])
        ++ map (recordDate (tz e)) (history st))%list
  /\ habits (saveAdjustment e name adjColor adjMinutes remove st)
     = habits st.
Proof.
  split; [apply saveSession_habits |]. split.
  { unfold saveSession. destruct (duration =? 0); reflexivity. }
  unfold saveAdjustment.
  destruct (JS.parseInt adjMinutes) as [mins |]; [| reflexivity].
  destruct (Z.ltb_spec 0 mins) as [P | NP]; [| reflexivity].
  rewrite saveSession_habits.
  destruct (Z.ltb_spec 0 (- (mins * 60))) as [Q | _]; [lia | reflexivity].
Qed.

(** C10.  A positive adjustment ([add], minutes > 0) and a valid manual log
    are completions for the streak: the habits of that name get the streak
    rule with today's local date, so one whose last completion date is not
    today gains 1 and is dated today. *)
Theorem positive_adjustment_advances_streak :
  (forall e name color minutes mins st,
     JS.parseInt minutes = Some mins -> 0 < mins ->
     let st' := saveAdjustment e name color minutes add st in
     habits st' = completeNamed name (getTodayString e) (habits st)
     /\ (forall h, In h (habits st) -> Habit.name h = name ->
           Habit.lastLogDate h <> getTodayString e ->
           In (Habit.set_lastLogDate (getTodayString e)
                 (Habit.set_streak (Habit.streak h + 1) h)) (habits st'))
     /\ (forall h, In h (habits st) -> Habit.name h = name ->
           Habit.lastLogDate h = getTodayString e -> In h (habits st')))
  /\ (forall e hid date minutes mins ymd habit st,
     find (fun h => (Habit.id h =? hid)%string) (habits st) = Some habit ->
     JS.parseInt minutes = Some mins -> 0 < mins ->
     JS.matchDate date = Some ymd ->
     habits (saveManualLog e (Some hid) date minutes st)
     = completeNamed (Habit.name habit) (getTodayString e) (habits st)).
Proof.
  split.
  - intros e name color minutes mins st Hp Hm st'.
    assert (Hh : habits st' = completeNamed name (getTodayString e) (habits st)).
    { subst st'. unfold saveAdjustment. rewrite Hp.
      destruct (Z.ltb_spec 0 mins) as [_ | NP]; [| lia].
      rewrite saveSession_habits.
      destruct (Z.ltb_spec 0 (mins * 60)) as [_ | NP]; [reflexivity | lia]. }
    split; [exact Hh |]. rewrite Hh. unfold completeNamed. split.
    + intros h Hin Hn Hl. apply in_map_iff. exists h. split; [| exact Hin].
      rewrite Hn, String.eqb_refl. unfold streakAfterCompletion.
      destruct (String.eqb_spec (Habit.lastLogDate h) (getTodayString e));
        [contradiction | reflexivity].
    + intros h Hin Hn Hl. apply in_map_iff. exists h. split; [| exact Hin].
      rewrite Hn, String.eqb_refl. unfold streakAfterCompletion.
      rewrite Hl, String.eqb_refl. rewrite <- Hl. now destruct h.
  - intros e hid date minutes mins [[y m] d] habit st Hf Hp Hm Hd.
    unfold saveManualLog. rewrite Hf, Hp, Hd.
    destruct (Z.leb_spec mins 0) as [NP | _]; [lia |].
    rewrite saveSession_habits.
    destruct (Z.ltb_spec 0 (mins * 60)) as [_ | NP]; [reflexivity | lia].
Qed.

(** "Reading", last completed on 2024-05-31 with a streak of 3, receives
    an adjustment of +20 minutes on 2024-06-01: streak 4, dated today. *)
Lemma positive_adjustment_advances_streak_witness :
  let h := Habit.set_lastLogDate "2024-05-31" (Habit.set_streak 3 reading) in
  habits (saveAdjustment juneNoon "Reading" "#3498db" "20" add
            (mkState [h] [] [] false))
  = [Habit.set_lastLogDate "2024-06-01" (Habit.set_streak 4 reading)].
Proof.
  intros h.
  destruct (proj1 positive_adjustment_advances_streak juneNoon
              "Reading"%string "#3498db"%string "20"%string 20
              (mkState [h] [] [] false) eq_refl eq_refl) as (Hh & _).
  exact Hh.
Defined.

(* ===================================================================== *)
(** ** Switching the mode                                                 *)
(* ===================================================================== *)

Lemma switchMode_history id newMode st :
  history (switchMode id newMode st) = history st.
Proof. reflexivity. Qed.

(** C6 as the claim states it fails: "Reading" runs as a stopwatch with 42
    seconds on the clock; switching it to the countdown is not refused.  The
    state changes: the habit is stopped, in countdown mode, at zero. *)
Lemma switchMode_running_counterexample :
  let h := Habit.set_elapsed 42 (Habit.set_isRunning true reading) in
  let st := mkState [h] [] [] false in
  Habit.isRunning h = true
  /\ switchMode "1" timer st <> st
  /\ habits (switchMode "1" timer st)
     = [Habit.set_selectedMode timer reading].
Proof.
  intros h st. repeat split; try reflexivity. vm_compute. discriminate.
Qed.

(** C6, amended.  [switchMode] is accepted in every state of the habit,
    running or not: the habit with that id (occurring once) takes the new
    mode, its elapsed time becomes 0 and it is not running afterwards; the
    other habits, the ledger, the goals and the drag flag are unchanged, so a
    running session is discarded without a record. *)
Theorem switchMode_stops_and_resets newMode st l1 h l2 :
  habits st = l1 ++ h :: l2 -> onlyId l1 h l2 ->
  switchMode (Habit.id h) newMode st
  = mkState
      (l1 ++ Habit.set_isRunning false
               (Habit.set_elapsed 0 (Habit.set_selectedMode newMode h)) :: l2)
      (history st) (goals st) (isDragging st).
Proof.
  intros Hh Hu. unfold switchMode, setHabits. rewrite Hh.
  now rewrite (map_only_id
    (fun x => Habit.set_isRunning false
                (Habit.set_elapsed 0 (Habit.set_selectedMode newMode x)))
    l1 h l2 Hu).
Qed.

Lemma switchMode_stops_and_resets_witness :
  let h := Habit.set_elapsed 42 (Habit.set_isRunning true reading) in
  switchMode "1" timer (mkState [h] [(HistoryItem.mk "a" "Reading" 60 hManual 0 "#3498db")] [goalJan1to3] false)
  = mkState [Habit.set_selectedMode timer reading]
      [(HistoryItem.mk "a" "Reading" 60 hManual 0 "#3498db")] [goalJan1to3] false.
Proof.
  intros h.
  exact (switchMode_stops_and_resets timer
           (mkState [h] [(HistoryItem.mk "a" "Reading" 60 hManual 0 "#3498db")]
              [goalJan1to3] false)
           [] h [] eq_refl (fun x (F : In x ([] ++ [])) => match F with end)).
Defined.

(* ===================================================================== *)
(** ** Drag suppression                                                   *)
(* ===================================================================== *)

(** C8.  While [isDraggingRef] is set a firing of the interval returns the
    state it was given, whatever the habits are doing, and so does any
    number of firings: the time is lost, not queued. *)
Theorem suppressed_tick_is_identity st n :
  isDragging st = true -> tick st = st /\ ticks n st = st.
Proof.
  intros Hd.
  assert (H1 : tick st = st) by (unfold tick; now rewrite Hd).
  split; [exact H1 |].
  induction n as [| n IH]; [reflexivity |].
  unfold ticks in *. simpl. now rewrite IH.
Qed.

(** A running stopwatch at 41 seconds and a countdown one second short of
    its target, with the drag flag set by [onDragBegin]: three ticks change
    nothing. *)
Lemma suppressed_tick_is_identity_witness :
  let st := onDragBegin
      (mkState [Habit.set_elapsed 41 (Habit.set_isRunning true reading);
                Habit.set_elapsed 599 (Habit.set_timerDuration 600
                  (Habit.set_isRunning true meditate))] [] [] false) in
  tick st = st /\ ticks 3 st = st.
Proof.
  intros st. exact (suppressed_tick_is_identity st 3 eq_refl).
Defined.

(* ===================================================================== *)
(** ** Deleting a habit                                                   *)
(* ===================================================================== *)

(** C9.  [deleteHabit] keeps exactly the goals that reference another
    habit and exactly the habits with another id, in their order, and does
    not touch the ledger: no record is removed and none is added, also when
    the deleted habit was running with time on its clock. *)
Theorem deleteHabit_cascades_and_keeps_ledger id st :
  let st' := deleteHabit id st in
  history st' = history st
  /\ goals st' = filter (fun g => negb (Goal.habitId g =? id)%string) (goals st)
  /\ (forall g, In g (goals st') <-> In g (goals st) /\ Goal.habitId g <> id)
  /\ (forall h, In h (habits st') <-> In h (habits st) /\ Habit.id h <> id)
  /\ isDragging st' = isDragging st.
Proof.
  simpl. split; [reflexivity |]. split; [reflexivity |].
  split; [| split; [| reflexivity]].
  - intros g. rewrite filter_In.
    destruct (String.eqb_spec (Goal.habitId g) id) as [E | N]; simpl;
      split; intros [Hin Hk]; try discriminate; try contradiction; now split.
  - intros h. rewrite filter_In.
    destruct (String.eqb_spec (Habit.id h) id) as [E | N]; simpl;
      split; intros [Hin Hk]; try discriminate; try contradiction; now split.
Qed.

(* ===================================================================== *)
(** ** The ledger only grows, and never by a record of zero seconds       *)
(* ===================================================================== *)







(** The operations that hand a session to the ledger, at zero: a stop with
    nothing on the clock and an adjustment or manual log of 0 minutes leave
    the ledger as it was. *)
Lemma zero_attempts_leave_ledger e st l1 h l2 name color hid date :
  habits st = l1 ++ h :: l2 -> onlyId l1 h l2 ->
  Habit.isRunning h = true -> Habit.elapsed h = 0 ->
  history (toggleRunHabit e (Habit.id h) st) = history st
  /\ saveAdjustment e name color "0" add st = st
  /\ saveAdjustment e name color "0" remove st = st
  /\ saveManualLog e hid date "0" st = st.
Proof.
  intros Hh Hu Hr He. split; [| split; [| split]]; try reflexivity.
  - rewrite (toggleRunHabit_running e st l1 h l2 Hh Hu Hr), He. reflexivity.
  - unfold saveManualLog. destruct hid; [| reflexivity].
    now destruct (find _ (habits st)).
Qed.



(* ===================================================================== *)
(** ** Goal progress                                                      *)
(* ===================================================================== *)

(** [reduce] from an accumulator over the kept records is the accumulator
    plus the signed seconds of the ledger. *)
Lemma reduce_filter_signedSeconds keep ledger acc :
  fold_left (fun a curr => a + HistoryItem.duration curr) (filter keep ledger) acc
  = acc + signedSeconds keep ledger.
Proof.
  revert acc. induction ledger as [| r rest IH]; intros acc; simpl.
  - lia.
  - destruct (keep r); simpl; rewrite IH; lia.
Qed.

(** The filter's predicate splits into the name test and the window test. *)
Lemma inGoalWindow_split e hs habitId goal habit item :
  find (fun h => (Habit.id h =? habitId)%string) hs = Some habit ->
  inGoalWindow e hs habitId goal item
  = (HistoryItem.habitName item =? Habit.name habit)%string
    && goalWindow e goal (HistoryItem.timestampMs item).
Proof.
  intros Hf. unfold inGoalWindow, goalWindow. rewrite Hf.
  destruct (HistoryItem.habitName item =? Habit.name habit)%string; simpl;
    [| reflexivity].
  change (24 * 60 * 60 * 1000) with 86400000.
  change JS.msPerDay with 86400000.
  destruct (Goal.period goal).
  - apply Z.geb_leb.
  - destruct (Z.ltb_spec (now e - HistoryItem.timestampMs item) (7 * 86400000));
      destruct (Z.ltb_spec (now e - 7 * 86400000) (HistoryItem.timestampMs item));
      (reflexivity || lia).
  - destruct (Z.ltb_spec (now e - HistoryItem.timestampMs item) (30 * 86400000));
      destruct (Z.ltb_spec (now e - 30 * 86400000) (HistoryItem.timestampMs item));
      (reflexivity || lia).
  - destruct (Goal.startDate goal) as [sd |], (Goal.endDate goal) as [ed |];
      simpl; try reflexivity.
    + destruct (JS.Date_parse sd) as [start |], (JS.Date_parse ed) as [endDay |];
        destruct (sd =? EmptyString)%string, (ed =? EmptyString)%string; simpl;
        try reflexivity.
      now rewrite Z.geb_leb.
    + now destruct (negb (sd =? EmptyString)%string).
Qed.

Lemma inGoalWindow_no_habit e hs habitId goal item :
  find (fun h => (Habit.id h =? habitId)%string) hs = None ->
  inGoalWindow e hs habitId goal item = false.
Proof. intros Hf. unfold inGoalWindow. now rewrite Hf. Qed.

Lemma getGoalProgress_spec e habitId goal st :
  getGoalProgress e habitId goal st = progressSpec e habitId goal st.
Proof.
  unfold getGoalProgress, progressSpec.
  rewrite reduce_filter_signedSeconds. simpl.
  destruct (find (fun h => (Habit.id h =? habitId)%string) (habits st))
    as [habit |] eqn:Hf.
  - f_equal. induction (history st) as [| r rest IH]; simpl; [reflexivity |].
    now rewrite IH, (inGoalWindow_split _ _ _ _ habit).
  - assert (Hz : signedSeconds (inGoalWindow e (habits st) habitId goal)
                   (history st) = 0).
    { induction (history st) as [| r rest IH]; simpl; [reflexivity |].
      now rewrite IH, inGoalWindow_no_habit. }
    now rewrite Hz.
Qed.



(* ===================================================================== *)
(** ** The window of a custom goal                                        *)
(* ===================================================================== *)

Lemma daysFromCivil_day y m d :
  JS.daysFromCivil y m d = JS.daysFromCivil y m 1 + (d - 1).
Proof. unfold JS.daysFromCivil. lia. Qed.

(** The date-only string parses to midnight UTC, which is the local
    midnight of that date ([new Date(y, m - 1, d)], as [saveManualLog]
    reads the same text) moved by the zone's offset. *)
Lemma Date_parse_vs_local s y m d v tzv :
  JS.matchDate s = Some (y, m, d) -> 100 <= y ->
  JS.Date_parse s = Some v ->
  v = JS.Date_local y (m - 1) d tzv + tzv.
Proof.
  intros Hm Hy Hp. unfold JS.Date_parse in Hp. rewrite Hm in Hp.
  destruct ((1 <=? m) && (m <=? 12) && (1 <=? d) && (d <=? JS.daysInMonth y m))
    eqn:Hv; [| discriminate].
  injection Hp as <-.
  apply andb_prop in Hv as [Hv _]. apply andb_prop in Hv as [Hv _].
  apply andb_prop in Hv as [H1 H12].
  apply Z.leb_le in H1, H12.
  unfold JS.Date_local.
  destruct (Z.leb_spec 0 y); destruct (Z.leb_spec y 99); simpl; try lia.
  rewrite Z.div_small, Z.mod_small by lia.
  replace (m - 1 + 1) with m by lia. replace (y + 0) with y by lia.
  rewrite (daysFromCivil_day y m d). lia.
Qed.

(** The custom window in terms of local midnights: both ends are off by the
    zone's offset, so it is the claimed window only where local time is UTC. *)
Lemma custom_window_shifted_by_zone e goal sd ed ys ms ds ye me de t :
  Goal.period goal = custom ->
  Goal.startDate goal = Some sd -> Goal.endDate goal = Some ed ->
  JS.matchDate sd = Some (ys, ms, ds) -> JS.matchDate ed = Some (ye, me, de) ->
  100 <= ys -> 100 <= ye ->
  JS.Date_parse sd <> None -> JS.Date_parse ed <> None ->
  goalWindow e goal t
  = (JS.Date_local ys (ms - 1) ds (tz e) + tz e <=? t)
    && (t <? JS.Date_local ye (me - 1) de (tz e) + JS.msPerDay + tz e).
Proof.
  intros Hp Hs He Ms Me Ys Ye Ps Pe. unfold goalWindow. rewrite Hp, Hs, He.
  destruct (JS.Date_parse sd) as [start |] eqn:Es; [| contradiction].
  destruct (JS.Date_parse ed) as [endDay |] eqn:Ee; [| contradiction].
  rewrite (Date_parse_vs_local sd ys ms ds start (tz e) Ms Ys Es).
  rewrite (Date_parse_vs_local ed ye me de endDay (tz e) Me Ye Ee).
  assert (Hsd : (sd =? EmptyString)%string = false)
    by (destruct sd; [discriminate Ms | reflexivity]).
  assert (Hed : (ed =? EmptyString)%string = false)
    by (destruct ed; [discriminate Me | reflexivity]).
  rewrite Hsd, Hed. simpl. f_equal. f_equal. lia.
Qed.

(** C4 (the code departs from the claim).  The goal runs from 2024-01-01
    to 2024-01-03 and the device is one hour east of UTC.  A manual log for
    2024-01-04 is stamped 2024-01-04 00:00 local, which the claim excludes:
    the code counts its 30 minutes.  A manual log for 2024-01-01 is stamped
    2024-01-01 00:00 local, the first instant of the claimed window: the
    code leaves it out.  Five hours west of UTC a record of 2024-01-03
    23:00 local, which the claim includes, is left out as well.  The code
    reads the goal's dates as midnight UTC. *)
Theorem custom_window_is_read_as_utc :
  let st := mkState [reading] [] [goalJan1to3] false in
  let day4 := saveManualLog januaryEast (Some "1"%string) "2024-01-04" "30" st in
  let day1 := saveManualLog januaryEast (Some "1"%string) "2024-01-01" "30" st in
  let west := mkEnv (now januaryEast) (-18000000) "0.5" in
  let late3 := HistoryItem.mk "r" "Reading" 1800 hManual
                 (JS.Date_local 2024 0 3 (tz west) + 23 * 3600000) "#3498db" in
  map HistoryItem.timestampMs (history day4)
    = [JS.Date_local 2024 0 4 (tz januaryEast)]
  /\ map (recordDate (tz januaryEast)) (history day4) = ["2024-01-04"%string]
  /\ getGoalProgress januaryEast "1" goalJan1to3 day4 = 30
  /\ map (recordDate (tz januaryEast)) (history day1) = ["2024-01-01"%string]
  /\ getGoalProgress januaryEast "1" goalJan1to3 day1 = 0
  /\ recordDate (tz west) late3 = "2024-01-03"%string
  /\ getGoalProgress west "1" goalJan1to3
       (mkState [reading] [late3] [goalJan1to3] false) = 0.
Proof. vm_compute. repeat split; reflexivity. Qed.

(** Where local time is UTC the two records of the claim's scenario are
    treated as the claim says. *)
Lemma custom_window_scenario_in_utc :
  let e := mkEnv (now januaryEast) 0 "0.5" in
  let at2300 := HistoryItem.mk "a" "Reading" 1800 hManual
                  (JS.Date_local 2024 0 3 0 + 23 * 3600000) "#3498db" in
  let at0000 := HistoryItem.mk "b" "Reading" 1800 hManual
                  (JS.Date_local 2024 0 4 0) "#3498db" in
  inGoalWindow e [reading] "1" goalJan1to3 at2300 = true
  /\ inGoalWindow e [reading] "1" goalJan1to3 at0000 = false.
Proof. vm_compute. split; reflexivity. Qed.

(* ===================================================================== *)
(** ** The order of the queued updaters does not matter                   *)
(* ===================================================================== *)

(** [toggleRunHabit] calls [saveSession] from inside its own updater.  The
    two updaters write different fields and read none that the other
    writes, so running the streak updater before or after the toggle gives
    the same state. *)
Lemma toggleHabit_logStreak_comm id name duration dateStr h :
  toggleHabit id (logStreak name duration dateStr h)
  = logStreak name duration dateStr (toggleHabit id h).
Proof.
  destruct h as [i n c col m td ti el r s l].
  destruct ((n =? name)%string && (0 <? duration)) eqn:E1;
    destruct (i =? id)%string eqn:E2; destruct r;
    unfold toggleHabit, logStreak;
    do 3 (cbn [Habit.id Habit.name Habit.category Habit.color
               Habit.selectedMode Habit.timerDuration Habit.timerInput
               Habit.elapsed Habit.isRunning Habit.streak Habit.lastLogDate
               Habit.set_elapsed Habit.set_isRunning Habit.set_timerDuration
               Habit.set_lastLogDate Habit.set_streak];
          rewrite ?E1, ?E2);
    reflexivity.
Qed.

Lemma saveSession_toggle_comm e id name duration mode color timestamp st :
  setHabits (map (toggleHabit id))
    (saveSession e name duration mode color timestamp st)
  = saveSession e name duration mode color timestamp
      (setHabits (map (toggleHabit id)) st).
Proof.
  unfold saveSession. destruct (duration =? 0); [reflexivity |].
  unfold setHabits, setHistory. simpl. f_equal.
  rewrite !map_map. apply map_ext. intros h.
  apply toggleHabit_logStreak_comm.
Qed.

(** X2.  [toggleRunHabit] gives the same state whether the updaters queued
    by [saveSession] run after the toggling updater or before it. *)
Lemma toggleRunHabit_order_irrelevant e id st :
  toggleRunHabit e id st
  = setHabits (map (toggleHabit id))
      (fold_left (fun s h => toggleEffect e id h s) (habits st) st).
Proof.
  unfold toggleRunHabit. generalize (habits st) as l.
  intros l. revert st. induction l as [| a l IH]; intros st; simpl.
  - reflexivity.
  - rewrite <- IH. f_equal. unfold toggleEffect.
    destruct ((Habit.id a =? id)%string && Habit.isRunning a); [| reflexivity].
    symmetry. apply saveSession_toggle_comm.
Qed.

(* ===================================================================== *)
(** ** Numbers as text and back                                           *)
(* ===================================================================== *)

Lemma digitsPrefix_step radix a c d s :
  JS.radixDigit radix c = Some d ->
  JS.digitsPrefix radix (Some a) (String c s)
  = JS.digitsPrefix radix (Some (a * radix + d)) s.
Proof. intros H. cbn [JS.digitsPrefix]. now rewrite H. Qed.

Lemma digitsPrefix_first radix c d s :
  JS.radixDigit radix c = Some d ->
  JS.digitsPrefix radix None (String c s)
  = JS.digitsPrefix radix (Some d) s.
Proof. intros H. cbn [JS.digitsPrefix]. now rewrite H. Qed.

(** Reading the digits of a decimal numeral after a positive prefix. *)
Lemma digitsPrefix_uint_acc u acc :
  JS.digitsPrefix 10 (Some (Zpos acc)) (NilEmpty.string_of_uint u)
  = Some (Zpos (Pos.of_uint_acc u acc)).
Proof.
  revert acc. induction u as [| u IH | u IH | u IH | u IH | u IH | u IH
                              | u IH | u IH | u IH | u IH]; intros acc;
    cbn [NilEmpty.string_of_uint Pos.of_uint_acc]; [reflexivity | ..].
  - rewrite (digitsPrefix_step 10 _ _ 0) by reflexivity.
    replace (Zpos acc * 10 + 0) with (Zpos (10 * acc)) by lia. apply IH.
  - rewrite (digitsPrefix_step 10 _ _ 1) by reflexivity.
    replace (Zpos acc * 10 + 1) with (Zpos (1 + 10 * acc)) by lia. apply IH.
  - rewrite (digitsPrefix_step 10 _ _ 2) by reflexivity.
    replace (Zpos acc * 10 + 2) with (Zpos (2 + 10 * acc)) by lia. apply IH.
  - rewrite (digitsPrefix_step 10 _ _ 3) by reflexivity.
    replace (Zpos acc * 10 + 3) with (Zpos (3 + 10 * acc)) by lia. apply IH.
  - rewrite (digitsPrefix_step 10 _ _ 4) by reflexivity.
    replace (Zpos acc * 10 + 4) with (Zpos (4 + 10 * acc)) by lia. apply IH.
  - rewrite (digitsPrefix_step 10 _ _ 5) by reflexivity.
    replace (Zpos acc * 10 + 5) with (Zpos (5 + 10 * acc)) by lia. apply IH.
  - rewrite (digitsPrefix_step 10 _ _ 6) by reflexivity.
    replace (Zpos acc * 10 + 6) with (Zpos (6 + 10 * acc)) by lia. apply IH.
  - rewrite (digitsPrefix_step 10 _ _ 7) by reflexivity.
    replace (Zpos acc * 10 + 7) with (Zpos (7 + 10 * acc)) by lia. apply IH.
  - rewrite (digitsPrefix_step 10 _ _ 8) by reflexivity.
    replace (Zpos acc * 10 + 8) with (Zpos (8 + 10 * acc)) by lia. apply IH.
  - rewrite (digitsPrefix_step 10 _ _ 9) by reflexivity.
    replace (Zpos acc * 10 + 9) with (Zpos (9 + 10 * acc)) by lia. apply IH.
Qed.

(** Leading zeros do not count. *)
Lemma digitsPrefix_uint_zero u :
  JS.digitsPrefix 10 (Some 0) (NilEmpty.string_of_uint u)
  = Some (Z.of_N (Pos.of_uint u)).
Proof.
  induction u as [| u IH | u IH | u IH | u IH | u IH | u IH
                  | u IH | u IH | u IH | u IH];
    cbn [NilEmpty.string_of_uint Pos.of_uint]; [reflexivity | ..].
  - rewrite (digitsPrefix_step 10 _ _ 0) by reflexivity. exact IH.
  - rewrite (digitsPrefix_step 10 _ _ 1) by reflexivity.
    apply (digitsPrefix_uint_acc u 1).
  - rewrite (digitsPrefix_step 10 _ _ 2) by reflexivity.
    apply (digitsPrefix_uint_acc u 2).
  - rewrite (digitsPrefix_step 10 _ _ 3) by reflexivity.
    apply (digitsPrefix_uint_acc u 3).
  - rewrite (digitsPrefix_step 10 _ _ 4) by reflexivity.
    apply (digitsPrefix_uint_acc u 4).
  - rewrite (digitsPrefix_step 10 _ _ 5) by reflexivity.
    apply (digitsPrefix_uint_acc u 5).
  - rewrite (digitsPrefix_step 10 _ _ 6) by reflexivity.
    apply (digitsPrefix_uint_acc u 6).
  - rewrite (digitsPrefix_step 10 _ _ 7) by reflexivity.
    apply (digitsPrefix_uint_acc u 7).
  - rewrite (digitsPrefix_step 10 _ _ 8) by reflexivity.
    apply (digitsPrefix_uint_acc u 8).
  - rewrite (digitsPrefix_step 10 _ _ 9) by reflexivity.
    apply (digitsPrefix_uint_acc u 9).
Qed.

(** The text of a non-empty decimal numeral starts with a digit, so it has
    no white space to skip, no sign and no hexadecimal prefix. *)
Lemma digitsPrefix_uint_none u :
  u <> Decimal.Nil ->
  JS.digitsPrefix 10 None (NilEmpty.string_of_uint u)
  = Some (Z.of_N (Pos.of_uint u)).
Proof.
  intros Hn. rewrite <- digitsPrefix_uint_zero.
  destruct u; [contradiction | ..]; reflexivity.
Qed.

Lemma stripHexPrefix_uint u :
  JS.stripHexPrefix (NilEmpty.string_of_uint u) = None.
Proof. destruct u as [| u | u | u | u | u | u | u | u | u | u];
  try reflexivity. destruct u; reflexivity. Qed.

Lemma skipWhiteSpace_uint u :
  JS.skipWhiteSpace (NilEmpty.string_of_uint u) = NilEmpty.string_of_uint u.
Proof. destruct u; reflexivity. Qed.

Lemma parseInt_uint u :
  u <> Decimal.Nil ->
  JS.parseInt (NilEmpty.string_of_uint u) = Some (Z.of_N (Pos.of_uint u))
  /\ JS.parseInt (String "-" (NilEmpty.string_of_uint u))
     = Some (- Z.of_N (Pos.of_uint u)).
Proof.
  intros Hn. unfold JS.parseInt. split.
  - rewrite skipWhiteSpace_uint.
    assert (Hs : (let '(sign, s2) :=
                    match NilEmpty.string_of_uint u with
                    | String "-" r => (-1, r)
                    | String "+" r => (1, r)
                    | _ => (1, NilEmpty.string_of_uint u)
                    end in (sign, s2)) = (1, NilEmpty.string_of_uint u))
      by (destruct u; reflexivity).
    destruct (match NilEmpty.string_of_uint u with
              | String "-" r => (-1, r)
              | String "+" r => (1, r)
              | _ => (1, NilEmpty.string_of_uint u)
              end) as [sign s2].
    injection Hs as -> ->.
    rewrite stripHexPrefix_uint, digitsPrefix_uint_none by exact Hn.
    simpl. now destruct (Pos.of_uint u).
  - change (option_map (Z.mul (-1))
              match JS.stripHexPrefix (NilEmpty.string_of_uint u) with
              | Some r => JS.digitsPrefix 16 None r
              | None => JS.digitsPrefix 10 None (NilEmpty.string_of_uint u)
              end = Some (- Z.of_N (Pos.of_uint u))).
    rewrite stripHexPrefix_uint, digitsPrefix_uint_none by exact Hn.
    simpl. now destruct (Pos.of_uint u).
Qed.

(** [parseInt(n.toString())] is [n], for every whole number [n], and
    ["NaN"] reads as [NaN]. *)
Lemma parseInt_toString_roundtrip n :
  JS.parseInt (JS.Number_toString n) = Some n
  /\ JS.parseInt (JS.toString None) = None.
Proof.
  split; [| reflexivity].
  unfold JS.Number_toString. destruct n as [| p | p]; [reflexivity | |].
  - unfold Z.to_int, NilZero.string_of_int, NilZero.string_of_uint.
    pose proof (DecimalPos.Unsigned.to_uint_nonnil p) as Hn.
    destruct (parseInt_uint (Pos.to_uint p) Hn) as [H _].
    rewrite DecimalPos.Unsigned.of_to in H.
    destruct (Pos.to_uint p); [contradiction | ..]; exact H.
  - unfold Z.to_int, NilZero.string_of_int, NilZero.string_of_uint.
    pose proof (DecimalPos.Unsigned.to_uint_nonnil p) as Hn.
    destruct (parseInt_uint (Pos.to_uint p) Hn) as [_ H].
    rewrite DecimalPos.Unsigned.of_to in H.
    destruct (Pos.to_uint p); [contradiction | ..]; exact H.
Qed.

(* ===================================================================== *)
(** ** The minutes field of a countdown                                   *)
(* ===================================================================== *)



(* ===================================================================== *)
(** ** Well-formed states                                                 *)
(* ===================================================================== *)

Lemma logStreak_habitOk name duration dateStr h :
  habitOk h -> habitOk (logStreak name duration dateStr h).
Proof.
  intros H. unfold logStreak.
  destruct ((Habit.name h =? name)%string && (0 <? duration)); exact H.
Qed.

Lemma tickHabit_habitOk h : habitOk h -> habitOk (tickHabit h).
Proof.
  intros Hok. unfold tickHabit.
  destruct (Habit.isRunning h) eqn:Hr; [| exact Hok].
  destruct Hok as (He & Hi & Hn & Hd & Ht).
  destruct (Habit.selectedMode h) eqn:Hm.
  - repeat split; cbn; try assumption; try lia; congruence.
  - destruct (Z.geb_spec (Habit.elapsed h + 1) (Habit.timerDuration h)).
    + repeat split; cbn; try assumption; try lia; congruence.
    + repeat split; cbn; try assumption; try lia; congruence.
Qed.

Lemma toggleHabit_habitOk id h : habitOk h -> habitOk (toggleHabit id h).
Proof.
  intros Hok. unfold toggleHabit.
  destruct (Habit.id h =? id)%string; [| exact Hok].
  destruct Hok as (He & Hi & (n & Hn1 & Hn) & Hd & Ht).
  destruct (Habit.isRunning h) eqn:Hr.
  - repeat split; cbn; try assumption; try lia; try congruence.
    now exists n.
  - specialize (Hi eq_refl).
    destruct (Habit.selectedMode h) eqn:Hm.
    + repeat split; cbn; try assumption; try lia; try congruence.
      now exists n.
    + rewrite Hn. unfold JS.orElse.
      destruct (Z.eqb_spec n 0); [lia |].
      repeat split; cbn; try assumption; try lia; try congruence.
      now exists n.
Qed.

Lemma saveSession_wellFormed e name duration mode color timestamp st :
  wellFormed st ->
  duration = 0 \/ 0 < duration \/ (mode = hAdjustment /\ duration < 0) ->
  wellFormed (saveSession e name duration mode color timestamp st).
Proof.
  intros [Hh Hl] Hd. destruct (Z.eq_dec duration 0) as [-> | Hnz];
    [now split |].
  rewrite saveSession_nonzero by exact Hnz. split; cbn.
  - apply Forall_map. eapply Forall_impl; [| exact Hh].
    intros h. apply logStreak_habitOk.
  - constructor; [| exact Hl]. unfold recordOk. cbn.
    destruct Hd as [? | [? | ?]]; [contradiction | now left | now right].
Qed.

Lemma fold_toggleEffect_wellFormed e id l st :
  Forall habitOk l -> wellFormed st ->
  wellFormed (fold_left (fun s h => toggleEffect e id h s) l st).
Proof.
  revert st. induction l as [| a l IH]; intros st Hl Hst; [exact Hst |].
  inversion Hl as [| ? ? Ha Hl']; subst. simpl. apply IH; [exact Hl' |].
  unfold toggleEffect.
  destruct ((Habit.id a =? id)%string && Habit.isRunning a); [| exact Hst].
  apply saveSession_wellFormed; [exact Hst |].
  destruct Ha as (He & _). lia.
Qed.

Lemma map_id_update_habitOk (f : Habit.t -> Habit.t) id hs :
  (forall h, habitOk h -> habitOk (f h)) ->
  Forall habitOk hs ->
  Forall habitOk
    (map (fun h => if (Habit.id h =? id)%string then f h else h) hs).
Proof.
  intros Hf Hh. apply Forall_map. eapply Forall_impl; [| exact Hh].
  intros h Hok. destruct (Habit.id h =? id)%string; [now apply Hf | exact Hok].
Qed.

Lemma step_wellFormed e c st :
  wellFormed st -> commandOk c -> wellFormed (step e c st).
Proof.
  intros [Hh Hl] Hc. destruct c; simpl.
  - (* Tick *)
    split; [| now rewrite tick_history].
    destruct (isDragging st) eqn:Hd.
    + unfold tick. now rewrite Hd.
    + rewrite tick_habits by exact Hd. apply Forall_map.
      eapply Forall_impl; [| exact Hh]. intros h. apply tickHabit_habitOk.
  - (* ToggleRun *)
    unfold toggleRunHabit. apply fold_toggleEffect_wellFormed; [exact Hh |].
    split; [| exact Hl]. cbn. apply Forall_map.
    eapply Forall_impl; [| exact Hh]. intros h. apply toggleHabit_habitOk.
  - (* Delete *)
    split; [| exact Hl]. cbn. apply Forall_forall. intros h Hin.
    apply filter_In in Hin. destruct Hin as [Hin _].
    now apply (proj1 (Forall_forall _ _) Hh).
  - (* Increment *)
    split; [| exact Hl]. cbn. apply map_id_update_habitOk; [| exact Hh].
    intros h (He & Hi & (n & Hn1 & Hn) & Hd & Ht).
    repeat split; try assumption.
    exists (n + 1). split; [lia |]. cbn. rewrite Hn.
    apply parseInt_toString_roundtrip.
  - (* Decrement *)
    split; [| exact Hl]. cbn. apply map_id_update_habitOk; [| exact Hh].
    intros h (He & Hi & (n & Hn1 & Hn) & Hd & Ht).
    repeat split; try assumption.
    exists (Z.max 1 (n - 1)). split; [lia |]. cbn. rewrite Hn.
    apply parseInt_toString_roundtrip.
  - (* SwitchMode *)
    split; [| exact Hl]. cbn. apply map_id_update_habitOk; [| exact Hh].
    intros h (He & Hi & Hn & Hd & Ht).
    repeat split; cbn; try assumption; try lia; congruence.
  - (* ManualLog *)
    unfold saveManualLog.
    destruct manualHabitId as [hid |]; [| now split].
    destruct (find _ (habits st)) as [habit |]; [| now split].
    destruct (JS.parseInt manualMinutes) as [mins |]; [| now split].
    destruct (Z.leb_spec mins 0); [now split |].
    destruct (JS.matchDate manualDate) as [[[y m] d] |]; [| now split].
    apply saveSession_wellFormed; [now split | lia].
  - (* Adjust *)
    unfold saveAdjustment.
    destruct (JS.parseInt minutes) as [mins |]; [| now split].
    destruct (Z.ltb_spec 0 mins); [| now split].
    apply saveSession_wellFormed; [now split |].
    destruct adjustType; [lia |]. right. right. split; [reflexivity | lia].
  - (* SaveGoal *)
    unfold saveGoal.
    destruct goalHabitId as [hid |]; [| now split].
    destruct (negb (truthy (Some hid))); [now split |].
    destruct (JS.parseInt goalTarget) as [mins |]; [| now split].
    destruct (0 <? mins); [| now split].
    destruct (isCustom goalPeriod
              && (negb (truthy (Some goalStartDate))
                  || negb (truthy (Some goalEndDate)))); now split.
  - (* DragBegin *) now split.
  - (* DragEnd *) split; [exact Hc | exact Hl].
Qed.

Lemma addNewHabit_wellFormed trim e rand1000 name category color st :
  wellFormed st ->
  wellFormed (addNewHabit trim e rand1000 name category color st).
Proof.
  intros [Hh Hl]. unfold addNewHabit.
  destruct (trim name =? EmptyString)%string; [now split |].
  split; [| exact Hl]. cbn. constructor; [| exact Hh].
  repeat split; cbn; try lia; try congruence. exists 1. now split.
Qed.

(** X4.  Every run of commands keeps a well-formed state well formed, and
    so does adding a habit; the empty state is well formed.  In such a
    state an idle habit has a clock at zero, the minutes field reads as a
    whole number of at least 1, the countdown length is at least 60
    seconds, a running countdown is short of its length, and in the ledger
    only adjustments are negative and no record is zero. *)
Theorem run_keeps_wellFormed evs st trim e rand1000 name category color :
  wellFormed st -> Forall (fun ec => commandOk (snd ec)) evs ->
  wellFormed (run evs st)
  /\ wellFormed (addNewHabit trim e rand1000 name category color st)
  /\ wellFormed emptyState.
Proof.
  intros Hst Hc. split; [| split].
  - revert st Hst. induction evs as [| [e' c] evs IH]; intros st Hst;
      [exact Hst |].
    inversion Hc as [| ? ? Hc1 Hc2]; subst. unfold run in *. simpl.
    apply IH; [exact Hc2 |]. now apply step_wellFormed.
  - now apply addNewHabit_wellFormed.
  - split; constructor.
Qed.

(** Two habits and a run over them: start, tick, stop, the arrows, a mode
    switch, a manual log, both adjustments and a deletion. *)
Lemma run_keeps_wellFormed_witness :
  wellFormed
    (run [(juneNoon, ToggleRun "2"); (juneNoon, Tick); (juneNoon, Tick);
          (juneNoon, ToggleRun "2"); (juneNoon, Increment "1");
          (juneNoon, Decrement "2"); (juneNoon, SwitchMode "1" timer);
          (juneNoon, ManualLog (Some "1"%string) "2024-05-30" "15");
          (juneNoon, Adjust "Reading" "#3498db" "5" remove);
          (juneNoon, Adjust "Reading" "#3498db" "7" add);
          (juneNoon, Delete "2")]
       (mkState [reading; meditate] [] [] false)).
Proof.
  refine (proj1 (run_keeps_wellFormed _ (mkState [reading; meditate] [] [] false)
                   trimAscii juneNoon 7 "Run" EmptyString "#e74c3c" _ _)).
  - split; [| constructor].
    constructor; [| constructor; [| constructor]].
    + repeat split; cbn; try lia; try congruence. exists 1. now split.
    + repeat split; cbn; try lia; try congruence. exists 10. now split.
  - repeat constructor.
Defined.

(* ===================================================================== *)
(** ** Ticks add up                                                       *)
(* ===================================================================== *)

Lemma tick_isDragging st : isDragging (tick st) = isDragging st.
Proof.
  unfold tick. destruct (isDragging st) eqn:E; [exact E |].
  destruct (existsb Habit.isRunning (habits st)); exact E.
Qed.

Lemma afterTicks_zero h : habitOk h -> afterTicks 0 h = h.
Proof.
  intros (_ & _ & _ & _ & Ht). unfold afterTicks.
  destruct (Habit.isRunning h) eqn:Hr; [| reflexivity].
  destruct (Habit.selectedMode h) eqn:Hm.
  - rewrite Z.add_0_r. now destruct h.
  - specialize (Ht eq_refl eq_refl). rewrite Z.add_0_r.
    destruct (Z.ltb_spec (Habit.elapsed h) (Habit.timerDuration h)); [| lia].
    now destruct h.
Qed.

Lemma afterTicks_succ n h :
  0 <= n -> habitOk h -> tickHabit (afterTicks n h) = afterTicks (n + 1) h.
Proof.
  intros Hn (He & _ & _ & _ & Ht). unfold afterTicks.
  destruct (Habit.isRunning h) eqn:Hr;
    [| unfold tickHabit; now rewrite Hr].
  destruct (Habit.selectedMode h) eqn:Hm.
  - unfold tickHabit. cbn. rewrite Hr, Hm.
    unfold Habit.set_elapsed. cbn. f_equal. lia.
  - destruct (Z.ltb_spec (Habit.elapsed h + n) (Habit.timerDuration h)) as [L | G].
    + unfold tickHabit. cbn. rewrite Hr, Hm.
      destruct (Z.geb_spec (Habit.elapsed h + n + 1) (Habit.timerDuration h));
        destruct (Z.ltb_spec (Habit.elapsed h + (n + 1)) (Habit.timerDuration h));
        try lia; [reflexivity |].
      unfold Habit.set_elapsed. cbn. f_equal. lia.
    + destruct (Z.ltb_spec (Habit.elapsed h + (n + 1)) (Habit.timerDuration h));
        [lia | reflexivity].
Qed.

(** X5.  With no drag in progress, [n] firings of the interval are one jump
    of [n] seconds on every well-formed habit: a running stopwatch gains
    exactly [n]; a running countdown gains [n] while that stays short of its
    length and is idle at zero from the firing at which it reaches it; an
    idle habit does not move.  The ledger and the goals are as before. *)
Theorem ticks_add_up n st :
  isDragging st = false -> Forall habitOk (habits st) ->
  ticks n st
  = mkState (map (afterTicks (Z.of_nat n)) (habits st))
      (history st) (goals st) false.
Proof.
  intros Hd Hok. induction n as [| n IH].
  - unfold ticks. simpl Nat.iter. destruct st as [hs hi gs dr]. cbn in *.
    subst dr. f_equal. rewrite <- (map_id hs) at 1.
    apply map_ext_in. intros h Hin. symmetry. apply afterTicks_zero.
    now apply (proj1 (Forall_forall _ _) Hok).
  - unfold ticks in *. simpl Nat.iter. rewrite IH.
    set (st1 := mkState _ _ _ _).
    assert (H1 : habits (tick st1) = map tickHabit (habits st1))
      by (apply tick_habits; reflexivity).
    assert (H2 : history (tick st1) = history st1) by apply tick_history.
    assert (H3 : goals (tick st1) = goals st1) by apply tick_goals.
    assert (H4 : isDragging (tick st1) = false)
      by (rewrite tick_isDragging; reflexivity).
    destruct (tick st1) as [hs hi gs dr]. cbn in H1, H2, H3, H4. subst.
    f_equal. rewrite map_map. apply map_ext_in. intros h Hin.
    replace (Z.of_nat (S n)) with (Z.of_nat n + 1) by lia.
    apply afterTicks_succ; [lia |].
    now apply (proj1 (Forall_forall _ _) Hok).
Qed.

(** A stopwatch at 0 and a countdown of 600 seconds at 0, both running:
    after 600 ticks the stopwatch shows 600 and the countdown is idle. *)
Lemma ticks_add_up_witness :
  ticks 600
    (mkState [Habit.set_isRunning true reading;
              Habit.set_timerDuration 600 (Habit.set_isRunning true meditate)]
       [] [] false)
  = mkState [Habit.set_elapsed 600 (Habit.set_isRunning true reading);
             Habit.set_timerDuration 600 meditate] [] [] false.
Proof.
  refine (ticks_add_up 600
    (mkState [Habit.set_isRunning true reading;
              Habit.set_timerDuration 600 (Habit.set_isRunning true meditate)]
       [] [] false) eq_refl _).
  constructor; [| constructor; [| constructor]].
  - repeat split; cbn; try lia; try congruence. exists 1. now split.
  - repeat split; cbn; try lia; try congruence. exists 10. now split.
Defined.

(* ===================================================================== *)
(** ** Starting a habit                                                   *)
(* ===================================================================== *)

(** X6.  Starting an idle habit (ids are unique) writes nothing to the
    ledger, the goals or any streak, and leaves the clock where it was.  A
    stopwatch keeps its stored length; a countdown is armed with 60 seconds
    per minute read from its minutes field, and with 60 seconds when the
    field does not read as a number or reads as 0. *)
Theorem start_arms_the_timer e st l1 h l2 :
  habits st = l1 ++ h :: l2 -> onlyId l1 h l2 ->
  Habit.isRunning h = false ->
  let length_ :=
    match Habit.selectedMode h, JS.parseInt (Habit.timerInput h) with
    | stopwatch, _ => Habit.timerDuration h
    | timer, Some n => if n =? 0 then 60 else n * 60
    | timer, None => 60
    end in
  toggleRunHabit e (Habit.id h) st
  = mkState
      (l1 ++ Habit.set_timerDuration length_ (Habit.set_isRunning true h) :: l2)
      (history st) (goals st) (isDragging st).
Proof.
  intros Hh Hu Hr length_. unfold toggleRunHabit.
  assert (Hfold : forall l s,
            (forall x, In x l -> Habit.id x = Habit.id h ->
                       Habit.isRunning x = false) ->
            fold_left (fun s0 h0 => toggleEffect e (Habit.id h) h0 s0) l s = s).
  { induction l as [| a l IH]; intros s Hl; [reflexivity |]. simpl.
    unfold toggleEffect at 2.
    destruct (String.eqb_spec (Habit.id a) (Habit.id h)) as [E | N]; simpl.
    - rewrite (Hl a (or_introl eq_refl) E).
      apply IH. intros x Hx. apply Hl. now right.
    - apply IH. intros x Hx. apply Hl. now right. }
  rewrite Hfold.
  - unfold setHabits. rewrite Hh. f_equal.
    pose (arm := fun x => Habit.set_timerDuration
         match Habit.selectedMode x with
         | timer => JS.orElse (JS.parseInt (Habit.timerInput x)) 1 * 60
         | stopwatch => Habit.timerDuration x
         end (Habit.set_isRunning true x)).
    transitivity (l1 ++ arm h :: l2);
      [rewrite <- (map_only_id arm l1 h l2 Hu) |].
    + apply map_ext_in. intros x Hx. unfold toggleHabit.
      destruct (String.eqb_spec (Habit.id x) (Habit.id h)) as [E | N];
        [| reflexivity].
      assert (Hxr : Habit.isRunning x = false).
      { apply in_app_or in Hx. destruct Hx as [Hx | [Hx | Hx]].
        - exfalso. apply (Hu x); [apply in_or_app; now left | exact E].
        - now subst x.
        - exfalso. apply (Hu x); [apply in_or_app; now right | exact E]. }
      now rewrite Hxr.
    + subst length_ arm. cbv beta. unfold JS.orElse.
      destruct (Habit.selectedMode h); [reflexivity |].
      destruct (JS.parseInt (Habit.timerInput h)) as [n |]; [| reflexivity].
      now destruct (n =? 0).
  - intros x Hx E. rewrite Hh in Hx.
    apply in_app_or in Hx. destruct Hx as [Hx | [Hx | Hx]].
    + exfalso. apply (Hu x); [apply in_or_app; now left | exact E].
    + now subst x.
    + exfalso. apply (Hu x); [apply in_or_app; now right | exact E].
Qed.

Lemma start_arms_the_timer_witness :
  toggleRunHabit juneNoon "2" (mkState [reading; meditate] [] [] false)
  = mkState
      [reading; Habit.set_timerDuration 600 (Habit.set_isRunning true meditate)]
      [] [] false.
Proof.
  refine (start_arms_the_timer juneNoon
            (mkState [reading; meditate] [] [] false) [reading] meditate []
            eq_refl _ eq_refl).
  intros x [<- | []]. discriminate.
Defined.

(* ===================================================================== *)
(** ** Sessions are attributed by name and counted once a day             *)
(* ===================================================================== *)

Lemma completeNamed_idempotent name d hs :
  completeNamed name d (completeNamed name d hs) = completeNamed name d hs.
Proof.
  unfold completeNamed. rewrite map_map. apply map_ext. intros h.
  destruct (Habit.name h =? name)%string eqn:E; [| now rewrite E].
  assert (E' : (Habit.name (streakAfterCompletion d h) =? name)%string = true)
    by exact E.
  rewrite E'. unfold streakAfterCompletion. cbn. now rewrite String.eqb_refl.
Qed.

(** X7.  Two sessions of positive duration logged on the same local
    calendar date for the same habit name leave the habits exactly as the
    first one alone does: the streak counts a day once, whatever the
    durations, kinds and time stamps of the sessions. *)
Theorem same_day_sessions_count_once
    e1 e2 name d1 d2 mode1 mode2 color1 color2 ts1 ts2 st :
  getTodayString e1 = getTodayString e2 -> 0 < d1 -> 0 < d2 ->
  habits (saveSession e2 name d2 mode2 color2 ts2
            (saveSession e1 name d1 mode1 color1 ts1 st))
  = habits (saveSession e1 name d1 mode1 color1 ts1 st).
Proof.
  intros Hday H1 H2. rewrite !saveSession_habits.
  destruct (Z.ltb_spec 0 d1); [| lia]. destruct (Z.ltb_spec 0 d2); [| lia].
  rewrite <- Hday. apply completeNamed_idempotent.
Qed.

Lemma same_day_sessions_count_once_witness :
  habits (saveSession juneNoon "Reading" 300 hStopwatch "#3498db" None
            (saveSession juneNoon "Reading" 1800 hManual "#3498db" (Some 5)
               (mkState [reading] [] [] false)))
  = [Habit.set_lastLogDate "2024-06-01" (Habit.set_streak 1 reading)].
Proof.
  exact (same_day_sessions_count_once juneNoon juneNoon "Reading" 1800 300
           hManual hStopwatch "#3498db" "#3498db" (Some 5) None
           (mkState [reading] [] [] false) eq_refl eq_refl eq_refl).
Defined.

(** X8.  Sessions are attributed by name, not by id: after a session of
    positive duration for a name, every habit of that name is dated today,
    the one that was timed and any other habit that happens to share its
    name; habits of other names are untouched. *)
Theorem sessions_reach_every_habit_of_the_name
    e name duration mode color timestamp st h :
  0 < duration ->
  In h (habits st) ->
  exists h',
    In h' (habits (saveSession e name duration mode color timestamp st))
    /\ Habit.id h' = Habit.id h
    /\ (Habit.name h = name ->
          Habit.lastLogDate h' = getTodayString e
          /\ Habit.streak h'
             = if (Habit.lastLogDate h =? getTodayString e)%string
               then Habit.streak h else Habit.streak h + 1)
    /\ (Habit.name h <> name -> h' = h).
Proof.
  intros Hd Hin. rewrite saveSession_habits.
  destruct (Z.ltb_spec 0 duration); [| lia]. unfold completeNamed.
  exists (if (Habit.name h =? name)%string
          then streakAfterCompletion (getTodayString e) h else h).
  split.
  { apply (in_map (fun x => if (Habit.name x =? name)%string
                           then streakAfterCompletion (getTodayString e) x
                           else x) _ h Hin). }
  destruct (String.eqb_spec (Habit.name h) name) as [E | N].
  - split; [reflexivity |]. split; [intros _; split; reflexivity |].
    intros N. contradiction.
  - split; [reflexivity |]. split; [intros E; contradiction |].
    intros _. reflexivity.
Qed.

(** Two habits called "Reading": stopping the first one advances the
    streak of the second as well. *)
Lemma sessions_reach_every_habit_of_the_name_witness :
  let twin := newHabit "9" "Reading" "#e74c3c" in
  exists h',
    In h' (habits (saveSession juneNoon "Reading" 125 hStopwatch "#3498db"
                     None (mkState [reading; twin] [] [] false)))
    /\ Habit.id h' = "9"%string /\ Habit.streak h' = 1.
Proof.
  intros twin.
  destruct (sessions_reach_every_habit_of_the_name juneNoon "Reading" 125
              hStopwatch "#3498db" None (mkState [reading; twin] [] [] false)
              twin eq_refl (or_intror (or_introl eq_refl)))
    as (h' & Hin & Hid & Hname & _).
  exists h'. split; [exact Hin |]. split; [exact Hid |].
  exact (proj2 (Hname eq_refl)).
Defined.

(* ===================================================================== *)
(** ** Goals                                                              *)
(* ===================================================================== *)












(* ===================================================================== *)
(** ** Progress follows the name; the filters of the statistics           *)
(* ===================================================================== *)

(** X11.  Goal progress reads the habit list only to find the name that
    the id carries now, and then reads the ledger: two states with the same
    ledger give two ids of the same name the same progress, whatever else
    differs.  For an id that no habit carries the progress is 0.  So the
    progress of a deleted habit drops to 0 although its records stay, and a
    new habit of the same name takes the old records over. *)
Theorem progress_depends_on_name_and_ledger e goal :
  (forall id1 id2 h1 h2 st1 st2,
     find (fun h => (Habit.id h =? id1)%string) (habits st1) = Some h1 ->
     find (fun h => (Habit.id h =? id2)%string) (habits st2) = Some h2 ->
     Habit.name h1 = Habit.name h2 -> history st1 = history st2 ->
     getGoalProgress e id1 goal st1 = getGoalProgress e id2 goal st2)
  /\ (forall id st,
        find (fun h => (Habit.id h =? id)%string) (habits st) = None ->
        getGoalProgress e id goal st = 0)
  /\ (forall id st,
        getGoalProgress e id goal (deleteHabit id st) = 0
        /\ history (deleteHabit id st) = history st)
  /\ (forall trim e' rand1000 name category color id h st,
        find (fun x => (Habit.id x =? id)%string) (habits st) = Some h ->
        Habit.name h = trim name -> trim name <> EmptyString ->
        getGoalProgress e
          (JS.Number_toString (now e') ++ JS.Number_toString rand1000)%string
          goal
          (addNewHabit trim e' rand1000 name category color (deleteHabit id st))
        = getGoalProgress e id goal st).
Proof.
  assert (Hname : forall id1 id2 h1 h2 st1 st2,
     find (fun h => (Habit.id h =? id1)%string) (habits st1) = Some h1 ->
     find (fun h => (Habit.id h =? id2)%string) (habits st2) = Some h2 ->
     Habit.name h1 = Habit.name h2 -> history st1 = history st2 ->
     getGoalProgress e id1 goal st1 = getGoalProgress e id2 goal st2).
  { intros id1 id2 h1 h2 st1 st2 H1 H2 Hn Hh.
    rewrite !getGoalProgress_spec. unfold progressSpec.
    now rewrite H1, H2, Hn, Hh. }
  assert (Hnone : forall id st,
        find (fun h => (Habit.id h =? id)%string) (habits st) = None ->
        getGoalProgress e id goal st = 0).
  { intros id st Hf. rewrite getGoalProgress_spec. unfold progressSpec.
    now rewrite Hf. }
  split; [exact Hname |]. split; [exact Hnone |]. split.
  - intros id st. split; [| reflexivity]. apply Hnone. cbn.
    induction (habits st) as [| a l IH]; [reflexivity |]. simpl.
    destruct (String.eqb_spec (Habit.id a) id) as [E | N]; simpl; [exact IH |].
    destruct (String.eqb_spec (Habit.id a) id); [contradiction | exact IH].
  - intros trim e' rand1000 name category color id h st Hf Hn Hne.
    unfold addNewHabit.
    destruct (String.eqb_spec (trim name) EmptyString); [contradiction |].
    eapply Hname; [| exact Hf | | reflexivity].
    + cbn. rewrite String.eqb_refl. reflexivity.
    + cbn. now rewrite Hn.
Qed.

(** "Reading" has 30 minutes on the books today; it is deleted and a new
    habit called " Reading " is added: the new habit shows the 30 minutes. *)
Lemma progress_depends_on_name_and_ledger_witness :
  let st := saveManualLog juneNoon (Some "1"%string) "2024-06-01" "30"
              (mkState [reading] [] [] false) in
  let goal := Goal.mk "x" 60 daily None None in
  getGoalProgress juneNoon "1" goal st = 30
  /\ getGoalProgress juneNoon "1" goal (deleteHabit "1" st) = 0
  /\ getGoalProgress juneNoon "17172432000007" goal
       (addNewHabit trimAscii juneNoon 7 " Reading " EmptyString "#e74c3c"
          (deleteHabit "1" st)) = 30.
Proof.
  intros st goal. split; [reflexivity |]. split.
  - exact (proj1 (proj1 (proj2 (proj2
             (progress_depends_on_name_and_ledger juneNoon goal))) "1"%string st)).
  - refine (eq_trans
      (proj2 (proj2 (proj2 (progress_depends_on_name_and_ledger juneNoon goal)))
         trimAscii juneNoon 7 " Reading "%string EmptyString "#e74c3c"%string
         "1"%string (Habit.set_lastLogDate "2024-06-01" (Habit.set_streak 1 reading))
         st eq_refl eq_refl _) eq_refl).
    discriminate.
Defined.

Lemma startOfLocalDay_bounds nowv tzv :
  nowv - JS.msPerDay < JS.startOfLocalDay nowv tzv <= nowv.
Proof.
  unfold JS.startOfLocalDay.
  change JS.msPerDay with 86400000.
  pose proof (Z.div_mod (nowv + tzv) 86400000 ltac:(lia)) as Hdm.
  pose proof (Z.mod_pos_bound (nowv + tzv) 86400000 ltac:(lia)) as Hb.
  lia.
Qed.

(** X12.  The filters of the statistics are nested and keep the order of
    the ledger: what "today" shows, "week" shows; what "week" shows, "month"
    shows; "all" is the whole ledger.  A record stamped in the future (a
    manual log for a coming day) passes every filter. *)
Theorem history_filters_are_nested e st r :
  getFilteredHistory e all st = history st
  /\ (In r (getFilteredHistory e today st) -> In r (getFilteredHistory e week st))
  /\ (In r (getFilteredHistory e week st) -> In r (getFilteredHistory e month st))
  /\ (In r (getFilteredHistory e month st) -> In r (history st))
  /\ (forall f, In r (history st) -> now e <= HistoryItem.timestampMs r ->
        In r (getFilteredHistory e f st))
  /\ (forall f, exists keep, getFilteredHistory e f st = filter keep (history st)).
Proof.
  unfold getFilteredHistory.
  change (24 * 60 * 60 * 1000) with 86400000.
  pose proof (startOfLocalDay_bounds (now e) (tz e)) as Hb.
  change JS.msPerDay with 86400000 in Hb.
  split; [| split; [| split; [| split; [| split]]]].
  - induction (history st) as [| a l IH]; [reflexivity |].
    simpl. now rewrite IH.
  - rewrite !filter_In. intros [Hin Hk]. split; [exact Hin |].
    apply Z.geb_le in Hk. apply Z.ltb_lt. lia.
  - rewrite !filter_In. intros [Hin Hk]. split; [exact Hin |].
    apply Z.ltb_lt in Hk. apply Z.ltb_lt. lia.
  - rewrite filter_In. tauto.
  - intros f Hin Hfut. apply filter_In. split; [exact Hin |].
    destruct f; [apply Z.geb_le | apply Z.ltb_lt | apply Z.ltb_lt | reflexivity];
      lia.
  - intros f. eexists. reflexivity.
Qed.

(** X13.  The goals screen and the statistics screen agree: the progress of
    a daily, weekly or monthly goal is the whole minutes in the signed sum of
    the records of the habit's name that the "today", "week" or "month"
    filter shows. *)
Theorem goal_window_matches_filter e id goal st habit f :
  find (fun h => (Habit.id h =? id)%string) (habits st) = Some habit ->
  filterOfPeriod (Goal.period goal) = Some f ->
  getGoalProgress e id goal st
  = signedSeconds
      (fun r => (HistoryItem.habitName r =? Habit.name habit)%string)
      (getFilteredHistory e f st) / 60.
Proof.
  intros Hf Hp. rewrite getGoalProgress_spec. unfold progressSpec.
  rewrite Hf. f_equal. unfold getFilteredHistory.
  change (24 * 60 * 60 * 1000) with 86400000.
  induction (history st) as [| r l IH]; [reflexivity |].
  cbn [signedSeconds filter]. rewrite IH. clear IH.
  unfold goalWindow. change JS.msPerDay with 86400000.
  destruct (Goal.period goal); cbn in Hp; try discriminate;
    injection Hp as <-.
  - rewrite Z.geb_leb.
    destruct (JS.startOfLocalDay (now e) (tz e) <=? HistoryItem.timestampMs r);
      cbn [signedSeconds];
      destruct (HistoryItem.habitName r =? Habit.name habit)%string; cbn; lia.
  - destruct (Z.ltb_spec (now e - 7 * 86400000) (HistoryItem.timestampMs r));
      destruct (Z.ltb_spec (now e - HistoryItem.timestampMs r) (7 * 86400000));
      try lia; cbn [signedSeconds];
      destruct (HistoryItem.habitName r =? Habit.name habit)%string; cbn; lia.
  - destruct (Z.ltb_spec (now e - 30 * 86400000) (HistoryItem.timestampMs r));
      destruct (Z.ltb_spec (now e - HistoryItem.timestampMs r) (30 * 86400000));
      try lia; cbn [signedSeconds];
      destruct (HistoryItem.habitName r =? Habit.name habit)%string; cbn; lia.
Qed.

Lemma goal_window_matches_filter_witness :
  let st := saveAdjustment juneNoon "Reading" "#3498db" "5" remove
              (saveManualLog juneNoon (Some "1"%string) "2024-05-28" "30"
                 (mkState [reading] [] [] false)) in
  getGoalProgress juneNoon "1" (Goal.mk "1" 60 weekly None None) st = 25
  /\ map HistoryItem.duration (getFilteredHistory juneNoon today st) = [-300].
Proof.
  intros st. split; [| reflexivity].
  exact (goal_window_matches_filter juneNoon "1"%string
           (Goal.mk "1" 60 weekly None None) st
           (Habit.set_lastLogDate "2024-06-01" (Habit.set_streak 1 reading))
           week eq_refl eq_refl).
Defined.

(** A manual log for tomorrow is shown under "today", hence under "week". *)
Lemma history_filters_are_nested_witness :
  let st := saveManualLog juneNoon (Some "1"%string) "2024-06-02" "30"
              (mkState [reading] [] [] false) in
  let r := HistoryItem.mk "17172432000000.5" "Reading" 1800 hManual
             1717286400000 "#3498db" in
  history st = [r] /\ In r (getFilteredHistory juneNoon week st).
Proof.
  intros st r. split; [reflexivity |].
  exact (proj1 (proj2 (history_filters_are_nested juneNoon st r))
           (or_introl eq_refl)).
Defined.

(* ===================================================================== *)
(** ** The statistics                                                     *)
(* ===================================================================== *)

Lemma insertSorted_perm {A : Type} (before : A -> A -> bool) x l :
  Permutation (x :: l) (insertSorted before x l).
Proof.
  induction l as [| y l IH]; simpl; [apply Permutation_refl |].
  destruct (before y x); [| apply Permutation_refl].
  eapply Permutation_trans; [apply perm_swap |]. now apply perm_skip.
Qed.

Lemma stableSort_perm {A : Type} (before : A -> A -> bool) l :
  Permutation l (stableSort before l).
Proof.
  induction l as [| x l IH]; simpl; [apply Permutation_refl |].
  eapply Permutation_trans; [| apply insertSorted_perm]. now apply perm_skip.
Qed.

Lemma filter_split_perm {A : Type} (f : A -> bool) l :
  Permutation l (filter f l ++ filter (fun x => negb (f x)) l).
Proof.
  induction l as [| a l IH]; simpl; [apply Permutation_refl |].
  destruct (f a); simpl; [now apply perm_skip |].
  now apply Permutation_cons_app.
Qed.

Lemma objectEntries_perm m : Permutation m (objectEntries m).
Proof.
  unfold objectEntries.
  eapply Permutation_trans;
    [apply (filter_split_perm
              (fun kv => match arrayIndex (fst kv) with
                         | Some _ => true | None => false end)) |].
  apply Permutation_app; [apply stableSort_perm |].
  rewrite (filter_ext
    (fun x => negb match arrayIndex (fst x) with
                   | Some _ => true | None => false end)
    (fun kv => match arrayIndex (fst kv) with
               | Some _ => false | None => true end));
    [apply Permutation_refl |].
  intros kv. now destruct (arrayIndex (fst kv)).
Qed.

Lemma stableSort_desc data :
  StronglySorted (fun a b => totalSeconds b <= totalSeconds a)
    (stableSort (fun a b => totalSeconds b <? totalSeconds a) data).
Proof.
  induction data as [| x l IH]; simpl; [constructor |].
  set (s := stableSort _ l) in *. clearbody s.
  induction IH as [| y r Hr IHr Hy]; simpl.
  - repeat constructor.
  - destruct (Z.ltb_spec (totalSeconds x) (totalSeconds y)) as [L | G].
    + constructor; [exact IHr |].
      eapply Permutation_Forall; [apply insertSorted_perm |].
      constructor; [lia | exact Hy].
    + constructor; [now constructor |].
      constructor; [exact G |].
      eapply Forall_impl; [| exact Hy]. intros z Hz. cbn in Hz. lia.
Qed.

Lemma sumRows_perm a b : Permutation a b -> sumRows a = sumRows b.
Proof.
  intros P. induction P; simpl; try lia.
Qed.

Lemma sumRows_app a b : sumRows (a ++ b) = sumRows a + sumRows b.
Proof. induction a as [| x a IH]; simpl; lia. Qed.

Lemma sumRows_bumpEntry k d c m :
  sumRows (map (fun kv => mkRow (fst kv) (fst (snd kv)) (snd (snd kv)))
             (bumpEntry k d c m))
  = sumRows (map (fun kv => mkRow (fst kv) (fst (snd kv)) (snd (snd kv))) m)
    + d.
Proof.
  induction m as [| [k' [s c']] m IH]; simpl; [lia |].
  destruct (k' =? k)%string; simpl; lia.
Qed.

Lemma keys_bumpEntry k d c m x :
  In x (map fst (bumpEntry k d c m)) <-> x = k \/ In x (map fst m).
Proof.
  induction m as [| [k' [s c']] m IH]; simpl; [intuition congruence |].
  destruct (String.eqb_spec k' k) as [E | N]; simpl.
  - subst. intuition congruence.
  - rewrite IH. intuition congruence.
Qed.

Lemma NoDup_bumpEntry k d c m :
  NoDup (map fst m) -> NoDup (map fst (bumpEntry k d c m)).
Proof.
  induction m as [| [k' [s c']] m IH]; simpl; intros Hn.
  - repeat constructor. intros [].
  - inversion Hn as [| ? ? Hnot Hrest]; subst.
    destruct (String.eqb_spec k' k) as [E | N]; simpl.
    + now constructor.
    + constructor; [| now apply IH].
      rewrite keys_bumpEntry. intros [E | Hin]; [congruence | contradiction].
Qed.

(** The seconds stored under key [k]: the entry's, or 0 without one. *)
Lemma entry_bumpEntry k d c m x s cx :
  NoDup (map fst m) ->
  In (x, (s, cx)) (bumpEntry k d c m) ->
  (x = k /\ ((exists s0, In (x, (s0, cx)) m /\ s = s0 + d)
             \/ (~ In x (map fst m) /\ s = d /\ cx = c)))
  \/ (x <> k /\ In (x, (s, cx)) m).
Proof.
  induction m as [| [k' [s' c']] m IH]; simpl; intros Hn Hin.
  - destruct Hin as [E | []]. injection E as <- <- <-.
    left. split; [reflexivity |]. right. tauto.
  - inversion Hn as [| ? ? Hnot Hrest]; subst.
    destruct (String.eqb_spec k' k) as [E | N]; simpl in Hin.
    + subst k'. destruct Hin as [E | Hin].
      * injection E as <- <- <-. left. split; [reflexivity |].
        left. exists s'. split; [now left | reflexivity].
      * destruct (String.eqb_spec x k) as [-> | Nx].
        -- exfalso. apply Hnot. apply in_map_iff. now exists (k, (s, cx)).
        -- right. split; [exact Nx | now right].
    + destruct Hin as [E | Hin].
      * injection E as <- <- <-. right. split; [exact N | now left].
      * destruct (IH Hrest Hin) as [[-> [(s0 & H0 & Hs) | (Hno & Hs & Hc)]] | [Nx H0]].
        -- left. split; [reflexivity |]. left. exists s0. split; [now right | exact Hs].
        -- left. split; [reflexivity |]. right. split; [| now split].
           intros [E | Hi]; [congruence | contradiction].
        -- right. split; [exact Nx | now right].
Qed.

(** What the loop over the filtered records builds, from any map it starts
    with: keys stay distinct, every key is a name that is not inherited, and
    the entry of a key holds what it held plus the seconds of the records of
    that name. *)
Lemma statsMap_fold inherited items m0 :
  NoDup (map fst m0) ->
  (forall k, In k (map fst m0) -> inherited k = false) ->
  let m := fold_left
    (fun m item =>
       if inherited (HistoryItem.habitName item) then m
       else bumpEntry (HistoryItem.habitName item) (HistoryItem.duration item)
              (HistoryItem.color item) m) items m0 in
  NoDup (map fst m)
  /\ (forall k, In k (map fst m) <->
        In k (map fst m0)
        \/ (inherited k = false
            /\ exists r, In r items /\ HistoryItem.habitName r = k))
  /\ (forall k s c, In (k, (s, c)) m ->
        exists s0,
          s = s0 + signedSeconds
                     (fun r => (HistoryItem.habitName r =? k)%string) items
          /\ (In k (map fst m0) -> exists c0, In (k, (s0, c0)) m0)
          /\ (~ In k (map fst m0) -> s0 = 0))
  /\ sumRows (map (fun kv => mkRow (fst kv) (fst (snd kv)) (snd (snd kv))) m)
     = sumRows (map (fun kv => mkRow (fst kv) (fst (snd kv)) (snd (snd kv))) m0)
       + signedSeconds (fun r => negb (inherited (HistoryItem.habitName r)))
           items.
Proof.
  revert m0. induction items as [| a items IH]; intros m0 Hn Hk; cbn zeta.
  - simpl. split; [exact Hn |]. split; [| split; [| lia]].
    + intros k. split; [tauto |]. intros [H | (_ & r & [] & _)]. exact H.
    + intros k s c Hin. exists s. split; [lia |]. split.
      * intros _. now exists c.
      * intros Hno. exfalso. apply Hno. apply in_map_iff. now exists (k, (s, c)).
  - simpl fold_left.
    destruct (inherited (HistoryItem.habitName a)) eqn:Hi.
    + destruct (IH m0 Hn Hk) as (I1 & I2 & I3 & I4). cbn zeta in *.
      split; [exact I1 |]. split; [| split].
      * intros k. rewrite I2. split.
        -- intros [H | (Hf & r & Hr & Hrn)]; [now left |].
           right. split; [exact Hf |]. exists r. split; [now right | exact Hrn].
        -- intros [H | (Hf & r & [-> | Hr] & Hrn)]; [now left | |].
           ++ congruence.
           ++ right. split; [exact Hf |]. now exists r.
      * intros k s c Hin. destruct (I3 k s c Hin) as (s0 & Hs & H1 & H2).
        assert (Hka : (HistoryItem.habitName a =? k)%string = false).
        { destruct (String.eqb_spec (HistoryItem.habitName a) k) as [E | N];
            [| reflexivity].
          assert (Hkin : In k (map fst (fold_left
             (fun m item =>
                if inherited (HistoryItem.habitName item) then m
                else bumpEntry (HistoryItem.habitName item)
                       (HistoryItem.duration item) (HistoryItem.color item) m)
             items m0))) by (apply in_map_iff; now exists (k, (s, c))).
          apply I2 in Hkin. destruct Hkin as [H | (Hf & _)].
          - rewrite <- E in H. apply Hk in H. congruence.
          - rewrite <- E in Hf. congruence. }
        exists s0. cbn [signedSeconds]. rewrite Hka. split; [lia | now split].
      * rewrite I4. cbn [signedSeconds]. rewrite Hi. cbn. lia.
    + set (m1 := bumpEntry (HistoryItem.habitName a) (HistoryItem.duration a)
                   (HistoryItem.color a) m0).
      assert (Hn1 : NoDup (map fst m1)) by now apply NoDup_bumpEntry.
      assert (Hk1 : forall k, In k (map fst m1) -> inherited k = false).
      { intros k Hin. apply keys_bumpEntry in Hin.
        destruct Hin as [-> | Hin]; [exact Hi | now apply Hk]. }
      destruct (IH m1 Hn1 Hk1) as (I1 & I2 & I3 & I4). cbn zeta in *.
      split; [exact I1 |]. split; [| split].
      * intros k. rewrite I2. unfold m1. rewrite keys_bumpEntry. split.
        -- intros [[-> | H] | (Hf & r & Hr & Hrn)].
           ++ right. split; [exact Hi |]. exists a. split; [now left | reflexivity].
           ++ now left.
           ++ right. split; [exact Hf |]. exists r. split; [now right | exact Hrn].
        -- intros [H | (Hf & r & [-> | Hr] & Hrn)].
           ++ left. now right.
           ++ left. left. now symmetry.
           ++ right. split; [exact Hf |]. now exists r.
      * intros k s c Hin. destruct (I3 k s c Hin) as (s1 & Hs & H1 & H2).
        cbn [signedSeconds].
        destruct (String.eqb_spec (HistoryItem.habitName a) k) as [E | N].
        -- assert (Hkin : In k (map fst m1))
             by (unfold m1; apply keys_bumpEntry; left; now symmetry).
           destruct (H1 Hkin) as (c1 & Hc1).
           unfold m1 in Hc1. apply entry_bumpEntry in Hc1; [| exact Hn].
           destruct Hc1 as [[_ [(s0 & Hs0 & Hs1) | (Hno & Hs1 & _)]] | [Nk _]];
             [| | congruence].
           ++ exists s0. split; [lia |]. split.
              ** intros _. now exists c1.
              ** intros Hno. exfalso. apply Hno. apply in_map_iff.
                 now exists (k, (s0, c1)).
           ++ exists 0. split; [lia |]. split; [| reflexivity].
              intros Hin0. contradiction.
        -- destruct (in_dec string_dec k (map fst m0)) as [Hin0 | Hno0].
           ++ assert (Hkin : In k (map fst m1))
                by (unfold m1; apply keys_bumpEntry; now right).
              destruct (H1 Hkin) as (c1 & Hc1).
              unfold m1 in Hc1. apply entry_bumpEntry in Hc1; [| exact Hn].
              destruct Hc1 as [[E _] | [_ Hc1]]; [congruence |].
              exists s1. split; [lia |]. split.
              ** intros _. now exists c1.
              ** intros Hno. contradiction.
           ++ assert (Hno1 : ~ In k (map fst m1)).
              { unfold m1. rewrite keys_bumpEntry. intros [E | H]; [| contradiction].
                apply N. now symmetry. }
              exists s1. split; [lia |]. split.
              ** intros Hin0. contradiction.
              ** intros _. now apply H2.
      * rewrite I4. unfold m1. rewrite sumRows_bumpEntry.
        cbn [signedSeconds]. rewrite Hi. cbn. lia.
Qed.

Lemma grandTotalSeconds_sum items :
  grandTotalSeconds items = signedSeconds (fun _ => true) items.
Proof.
  unfold grandTotalSeconds.
  assert (H : forall acc,
            fold_left (fun t item => t + HistoryItem.duration item) items acc
            = acc + signedSeconds (fun _ => true) items).
  { induction items as [| a l IH]; intros acc; simpl; [lia |].
    rewrite IH. lia. }
  rewrite H. lia.
Qed.

Lemma statsData_perm inherited items :
  Permutation
    (map (fun kv => mkRow (fst kv) (fst (snd kv)) (snd (snd kv)))
       (statsMapOf inherited items))
    (statsData inherited items).
Proof.
  unfold statsData.
  eapply Permutation_trans; [| apply stableSort_perm].
  apply Permutation_map, objectEntries_perm.
Qed.

(** X14.  The chart of the statistics screen.  Its rows are sorted by
    falling total; there is one row per habit name among the filtered
    records (names that [Object.prototype] answers for get no row); the
    total of a row is the signed sum of the seconds of the records of that
    name; the totals of the rows add up to the sum over the records with a
    row, which is the grand total whenever no record carries such a name;
    and the scale [maxVal] is at least 1 and at least every total. *)
Theorem stats_rows_account_for_the_ledger inherited items :
  let data := statsData inherited items in
  StronglySorted (fun a b => totalSeconds b <= totalSeconds a) data
  /\ NoDup (map rowName data)
  /\ (forall row, In row data ->
        inherited (rowName row) = false
        /\ (exists r, In r items /\ HistoryItem.habitName r = rowName row)
        /\ totalSeconds row
           = signedSeconds
               (fun r => (HistoryItem.habitName r =? rowName row)%string) items)
  /\ (forall r, In r items -> inherited (HistoryItem.habitName r) = false ->
        In (HistoryItem.habitName r) (map rowName data))
  /\ sumRows data
     = signedSeconds (fun r => negb (inherited (HistoryItem.habitName r))) items
  /\ ((forall r, In r items -> inherited (HistoryItem.habitName r) = false) ->
        sumRows data = grandTotalSeconds items)
  /\ 1 <= maxVal data
  /\ (forall row, In row data -> totalSeconds row <= maxVal data).
Proof.
  intros data.
  pose proof (statsData_perm inherited items) as P. fold data in P.
  destruct (statsMap_fold inherited items [] (NoDup_nil _)
              (fun k (F : In k []) => match F with end))
    as (I1 & I2 & I3 & I4).
  cbn zeta in I1, I2, I3, I4. fold (statsMapOf inherited items) in I1, I2, I3, I4.
  set (m := statsMapOf inherited items) in *.
  assert (Hnames : Permutation (map fst m) (map rowName data)).
  { replace (map fst m)
      with (map rowName
              (map (fun kv => mkRow (fst kv) (fst (snd kv)) (snd (snd kv))) m))
      by (rewrite map_map; apply map_ext; reflexivity).
    now apply Permutation_map. }
  assert (Hsorted : StronglySorted
            (fun a b => totalSeconds b <= totalSeconds a) data)
    by apply stableSort_desc.
  assert (Hsum : sumRows data
     = signedSeconds (fun r => negb (inherited (HistoryItem.habitName r))) items).
  { rewrite <- (sumRows_perm _ _ P), I4. simpl. lia. }
  split; [exact Hsorted |].
  split; [now apply (Permutation_NoDup Hnames) |].
  split; [| split; [| split; [exact Hsum | split; [| split]]]].
  - intros row Hrow. apply (Permutation_in _ (Permutation_sym P)) in Hrow.
    apply in_map_iff in Hrow. destruct Hrow as ([k [s c]] & <- & Hin). cbn.
    assert (Hk : In k (map fst m)) by (apply in_map_iff; now exists (k, (s, c))).
    apply I2 in Hk. destruct Hk as [[] | (Hf & r & Hr & Hrn)].
    split; [exact Hf |]. split; [now exists r |].
    destruct (I3 k s c Hin) as (s0 & Hs & _ & H0).
    rewrite (H0 (fun F => F)) in Hs. lia.
  - intros r Hr Hf. apply (Permutation_in _ Hnames). apply I2.
    right. split; [exact Hf |]. now exists r.
  - intros Hall. rewrite Hsum, grandTotalSeconds_sum.
    clear - Hall. induction items as [| a l IH]; [reflexivity |].
    cbn [signedSeconds]. rewrite (Hall a (or_introl eq_refl)). cbn.
    f_equal. apply IH. intros r Hr. apply Hall. now right.
  - unfold maxVal. destruct data; lia.
  - intros row Hrow. unfold maxVal.
    destruct data as [| first rest]; [contradiction |].
    inversion Hsorted as [| ? ? _ Hall]; subst.
    destruct Hrow as [<- | Hrow]; [lia |].
    pose proof (proj1 (Forall_forall _ _) Hall row Hrow) as Hle. cbn in Hle. lia.
Qed.

(** Three habits, one of them called "toString" and one called "7": the
    chart has rows for "Reading" (35 minutes in two records) and "7", none
    for "toString", and the grand total also counts the record without a
    row. *)
Lemma stats_rows_account_for_the_ledger_witness :
  let items :=
    [HistoryItem.mk "a" "Reading" 1800 hManual 0 "#3498db";
     HistoryItem.mk "b" "toString" 600 hManual 0 "#e74c3c";
     HistoryItem.mk "c" "7" 900 hManual 0 "#2ecc71";
     HistoryItem.mk "d" "Reading" 300 hAdjustment 0 "#000000"] in
  statsData inheritedName items
    = [mkRow "Reading" 2100 "#3498db"; mkRow "7" 900 "#2ecc71"]
  /\ sumRows (statsData inheritedName items) = 3000
  /\ grandTotalSeconds items = 3600
  /\ maxVal (statsData inheritedName items) = 2100.
Proof.
  intros items. split; [reflexivity |]. split; [| split; reflexivity].
  exact (proj1 (proj2 (proj2 (proj2 (proj2
           (stats_rows_account_for_the_ledger inheritedName items)))))).
Defined.

(* ===================================================================== *)
(** ** Times and colours as text                                          *)
(* ===================================================================== *)

Example getCategoryColor_samples :
  getCategoryColor (asciiCodes "Health") = "#99EE7C"%string
  /\ getCategoryColor (asciiCodes "a") = "#000061"%string
  /\ getCategoryColor [] = "#000000"%string
  /\ formatTime 125 = "02:05"%string
  /\ formatTime (-3725) = "-1:02:05"%string
  /\ formatTime 0 = "00:00"%string.
Proof. vm_compute. repeat split. Qed.

Lemma string_length_app a b :
  String.length (a ++ b) = (String.length a + String.length b)%nat.
Proof. induction a as [| c a IH]; simpl; [reflexivity | now rewrite IH]. Qed.

Lemma chars_app a b :
  list_ascii_of_string (a ++ b)
  = (list_ascii_of_string a ++ list_ascii_of_string b)%list.
Proof. induction a as [| c a IH]; simpl; [reflexivity | now rewrite IH]. Qed.

Lemma hexChar_hex d : 0 <= d < 16 -> isHexUpper (hexChar d) = true.
Proof.
  intros Hd. replace d with (Z.of_nat (Z.to_nat d)) by lia.
  assert (Hn : (Z.to_nat d < 16)%nat) by lia.
  generalize dependent (Z.to_nat d). clear. intros n Hn.
  do 16 (destruct n as [| n]; [reflexivity |]). lia.
Qed.

Lemma hexDigits_bounds fuel : forall n acc k,
  0 <= n < 16 ^ Z.of_nat (S k) ->
  (String.length acc
   <= String.length (hexDigits fuel n acc)
   <= S k + String.length acc)%nat
  /\ (fuel <> O ->
      (S (String.length acc) <= String.length (hexDigits fuel n acc))%nat)
  /\ (forallb isHexUpper (list_ascii_of_string acc) = true ->
      forallb isHexUpper (list_ascii_of_string (hexDigits fuel n acc)) = true).
Proof.
  induction fuel as [| fuel IH]; intros n acc k Hn.
  - simpl. split; [lia |]. split; [congruence | tauto].
  - cbn [hexDigits].
    assert (Hc : isHexUpper (hexChar (n mod 16)) = true)
      by (apply hexChar_hex; apply Z.mod_pos_bound; lia).
    destruct (Z.eqb_spec (n / 16) 0) as [E | N].
    + simpl. split; [lia |]. split; [lia |]. intros Ha. now rewrite Hc.
    + destruct k as [| k].
      * exfalso. apply N. apply Z.div_small. change (16 ^ Z.of_nat 1) with 16 in Hn.
        lia.
      * assert (Hq : 0 <= n / 16 < 16 ^ Z.of_nat (S k)).
        { split; [apply Z.div_pos; lia |].
          apply Z.div_lt_upper_bound; [lia |].
          replace (Z.of_nat (S (S k))) with (Z.succ (Z.of_nat (S k))) in Hn by lia.
          rewrite Z.pow_succ_r in Hn by lia. lia. }
        destruct (IH (n / 16) (String (hexChar (n mod 16)) acc) k Hq)
          as (B1 & _ & B3).
        cbn [String.length] in B1. split; [lia |]. split; [lia |].
        intros Ha. apply B3. cbn. now rewrite Hc.
Qed.

Lemma firstChars_zeros k :
  (k <= 5)%nat ->
  String.length (firstChars k "00000") = k
  /\ forallb isHexUpper (list_ascii_of_string (firstChars k "00000")) = true.
Proof.
  intros Hk. do 6 (destruct k as [| k]; [now split |]). lia.
Qed.

(** X15.  [getCategoryColor] always returns a well-formed colour: a hash
    sign followed by exactly six characters, each one of 0-9 and A-F, for
    every text, the empty one included. *)
Theorem getCategoryColor_is_a_colour codes :
  exists digits,
    getCategoryColor codes = String "#" digits
    /\ String.length digits = 6%nat
    /\ forallb isHexUpper (list_ascii_of_string digits) = true.
Proof.
  unfold getCategoryColor.
  set (v := Z.land _ 16777215).
  assert (Hv : 0 <= v < 16 ^ Z.of_nat 6).
  { subst v. change 16777215 with (Z.ones 24). rewrite Z.land_ones by lia.
    change (16 ^ Z.of_nat 6) with (2 ^ 24). apply Z.mod_pos_bound. lia. }
  destruct (hexDigits_bounds (S (Z.to_nat (Z.log2 v))) v EmptyString 5 Hv)
    as ((_ & Hup) & Hlow & Hhex).
  fold (toHexUpper v) in Hup, Hlow, Hhex.
  specialize (Hlow ltac:(discriminate)). specialize (Hhex eq_refl).
  cbn [String.length] in Hup, Hlow.
  destruct (firstChars_zeros (6 - String.length (toHexUpper v))) as [Hl Hz];
    [lia |].
  eexists. split; [reflexivity |]. split.
  - rewrite string_length_app, Hl. lia.
  - rewrite chars_app, forallb_app, Hz, Hhex. reflexivity.
Qed.

Lemma twoDigits_width n :
  0 <= n < 60 ->
  String.length (twoDigits n) = 2%nat
  /\ exists c rest, twoDigits n = String c rest /\ JS.isDigit c = true.
Proof.
  intros Hn. replace n with (Z.of_nat (Z.to_nat n)) by lia.
  assert (Hk : (Z.to_nat n < 60)%nat) by lia.
  generalize dependent (Z.to_nat n). clear. intros k Hk.
  do 60 (destruct k as [| k];
         [split; [reflexivity | eexists; eexists; split; reflexivity] |]).
  lia.
Qed.

Lemma Number_toString_digit_first n :
  0 <= n ->
  exists c rest, JS.Number_toString n = String c rest /\ JS.isDigit c = true.
Proof.
  intros Hn. unfold JS.Number_toString. destruct n as [| p | p]; [| | lia].
  - eexists; eexists; split; reflexivity.
  - unfold Z.to_int, NilZero.string_of_int, NilZero.string_of_uint.
    pose proof (DecimalPos.Unsigned.to_uint_nonnil p) as Hnn.
    destruct (Pos.to_uint p); [contradiction | ..];
      eexists; eexists; split; reflexivity.
Qed.

(** X16.  [formatTime]: a negative time is the positive one behind a minus
    sign; a time that is not negative starts with a digit, never with a
    sign; and under an hour the text is exactly five characters, MM:SS. *)
Theorem formatTime_shape s :
  (0 < s -> formatTime (- s) = String "-" (formatTime s))
  /\ (0 <= s ->
      exists c rest, formatTime s = String c rest /\ JS.isDigit c = true)
  /\ (0 <= s < 3600 -> String.length (formatTime s) = 5%nat).
Proof.
  split; [| split].
  - intros Hs. unfold formatTime.
    destruct (Z.ltb_spec (- s) 0); [| lia]. destruct (Z.ltb_spec s 0); [lia |].
    now rewrite Z.abs_opp.
  - intros Hs. unfold formatTime.
    destruct (Z.ltb_spec s 0); [lia |]. rewrite Z.abs_eq by exact Hs.
    destruct (Z.ltb_spec 0 (s / 3600)) as [Hh | Hh].
    + destruct (Number_toString_digit_first (s / 3600)) as (c & rest & E & Hc);
        [lia |].
      rewrite E. cbn. now exists c, (rest ++ ":" ++ twoDigits (s mod 3600 / 60)
                                        ++ ":" ++ twoDigits (s mod 60))%string.
    + assert (Hm : 0 <= s mod 3600 / 60 < 60).
      { pose proof (Z.mod_pos_bound s 3600 ltac:(lia)).
        split; [apply Z.div_pos; lia | apply Z.div_lt_upper_bound; lia]. }
      destruct (twoDigits_width _ Hm) as (_ & c & rest & E & Hc).
      rewrite E. cbn. now exists c, (rest ++ ":" ++ twoDigits (s mod 60))%string.
  - intros Hs. unfold formatTime.
    destruct (Z.ltb_spec s 0); [lia |]. rewrite Z.abs_eq by lia.
    rewrite (Z.div_small s 3600) by lia. cbn [Z.ltb Z.compare].
    rewrite (Z.mod_small s 3600) by lia.
    assert (Hm : 0 <= s / 60 < 60)
      by (split; [apply Z.div_pos; lia | apply Z.div_lt_upper_bound; lia]).
    assert (Hsec : 0 <= s mod 60 < 60) by (apply Z.mod_pos_bound; lia).
    rewrite !string_length_app.
    rewrite (proj1 (twoDigits_width _ Hm)), (proj1 (twoDigits_width _ Hsec)).
    reflexivity.
Qed.

Lemma formatTime_shape_witness :
  formatTime (- 125) = String "-" (formatTime 125)
  /\ String.length (formatTime 3599) = 5%nat.
Proof.
  split.
  - exact (proj1 (formatTime_shape 125) eq_refl).
  - refine (proj2 (proj2 (formatTime_shape 3599)) _). lia.
Defined.

(** X17.  The card of a countdown.  While it runs and is still short of
    its length after [n] more seconds, the card shows the time that is left,
    [timerDuration - elapsed - n], which is never negative; from the second
    at which the length is reached the card shows no time at all.  A running
    stopwatch shows its elapsed time. *)
Theorem countdown_card_counts_down n h :
  0 <= n -> habitOk h -> Habit.isRunning h = true ->
  match Habit.selectedMode h with
  | timer =>
      if Habit.elapsed h + n <? Habit.timerDuration h
      then displayTime (afterTicks n h)
           = formatTime (Habit.timerDuration h - Habit.elapsed h - n)
           /\ 0 < Habit.timerDuration h - Habit.elapsed h - n
      else displayTime (afterTicks n h) = EmptyString
  | stopwatch =>
      displayTime (afterTicks n h) = formatTime (Habit.elapsed h + n)
  end.
Proof.
  intros Hn (He & _ & _ & Hd & Ht) Hr. unfold afterTicks. rewrite Hr.
  destruct (Habit.selectedMode h) eqn:Hm.
  - unfold displayTime. cbn. now rewrite Hm.
  - destruct (Z.ltb_spec (Habit.elapsed h + n) (Habit.timerDuration h)) as [L | G].
    + unfold displayTime. cbn. rewrite Hm, Hr. split; [| lia].
      f_equal. lia.
    + unfold displayTime. cbn. now rewrite Hm.
Qed.

Lemma countdown_card_counts_down_witness :
  let h := Habit.set_timerDuration 600 (Habit.set_isRunning true meditate) in
  displayTime (afterTicks 535 h) = "01:05"%string.
Proof.
  intros h.
  assert (Hok : habitOk h).
  { repeat split; cbn; try lia; try congruence. exists 10. now split. }
  exact (proj1 (countdown_card_counts_down 535 h ltac:(lia) Hok eq_refl)).
Defined.

(* ===================================================================== *)
(** ** Accounts and the user store                                        *)
(* ===================================================================== *)

Lemma dbGet_dbSet_same inherited db k user :
  dbGet inherited (dbSet db k user) k = Own user.
Proof.
  unfold dbGet. induction db as [| [k' u'] db IH]; simpl.
  - now rewrite String.eqb_refl.
  - destruct (String.eqb_spec k' k) as [E | N]; simpl.
    + subst. now rewrite String.eqb_refl.
    + destruct (String.eqb_spec k' k); [contradiction | exact IH].
Qed.

Lemma dbGet_dbSet_other inherited db k user k' :
  k' <> k -> dbGet inherited (dbSet db k user) k' = dbGet inherited db k'.
Proof.
  intros Hne. unfold dbGet.
  assert (Hf : find (fun kv => (fst kv =? k')%string) (dbSet db k user)
               = find (fun kv => (fst kv =? k')%string) db).
  { induction db as [| [k0 u0] db IH]; simpl.
    - destruct (String.eqb_spec k k'); [congruence | reflexivity].
    - destruct (String.eqb_spec k0 k) as [E | N]; simpl.
      + subst. destruct (String.eqb_spec k k'); [congruence | reflexivity].
      + destruct (k0 =? k')%string; [reflexivity | exact IH]. }
  now rewrite Hf.
Qed.

Lemma dbGet_dbSetData inherited db k d k' :
  dbGet inherited (dbSetData inherited db k d) k'
  = match dbGet inherited db k with
    | Own user =>
        if (k' =? k)%string then Own (UserData.mk (UserData.auth user) d)
        else dbGet inherited db k'
    | Inherited | Absent => dbGet inherited db k'
    end.
Proof.
  unfold dbSetData. destruct (dbGet inherited db k) as [user | |] eqn:E;
    try reflexivity.
  destruct (String.eqb_spec k' k) as [-> | N].
  - apply dbGet_dbSet_same.
  - now apply dbGet_dbSet_other.
Qed.

Lemma themeOrDefault_known themeId :
  In themeId themeIds -> themeOrDefault themeId = themeId.
Proof.
  intros Hin. unfold themeOrDefault.
  destruct (existsb (String.eqb themeId) themeIds) eqn:E; [reflexivity |].
  assert (Ht : existsb (String.eqb themeId) themeIds = true).
  { apply existsb_exists. exists themeId. split; [exact Hin |].
    apply String.eqb_refl. }
  congruence.
Qed.

(** X18.  Logging out and in again restores the session.  For a user with
    an account who is logged in, [handleLogout] followed by [handleLogin]
    with the name and password of the account ends without alert and gives
    the engine state (habits, ledger, goals) and the theme that were there
    before the logout; the store holds that state under the user's name, and
    the entries of all other names are as before. *)
Theorem logout_login_restores_the_session
    trim toLowerCase inherited app authName authPass u user :
  currentUser app = Some u -> u <> EmptyString ->
  dbGet inherited (usersDb app) u = Own user ->
  toLowerCase (trim authName) = u ->
  trim authPass = Auth.password (UserData.auth user) ->
  In (currentTheme app) themeIds ->
  let out := handleLogin trim toLowerCase inherited authName authPass
               (handleLogout inherited app) in
  snd out = Done
  /\ engine (fst out) = engine app
  /\ currentTheme (fst out) = currentTheme app
  /\ currentUser (fst out) = Some u /\ isLoggedIn (fst out) = true
  /\ dbGet inherited (usersDb (fst out)) u
     = Own (UserData.mk (UserData.auth user) (snapshot app))
  /\ (forall v, v <> u ->
        dbGet inherited (usersDb (fst out)) v = dbGet inherited (usersDb app) v).
Proof.
  intros Hu Hne Hown Hname Hpass Htheme out. subst out.
  unfold handleLogin, handleLogout. rewrite Hu, Hname.
  destruct (String.eqb_spec u EmptyString); [contradiction |].
  cbn [negb usersDb]. rewrite dbGet_dbSetData, Hown, String.eqb_refl.
  cbn [UserData.auth Auth.password]. rewrite Hpass, String.eqb_refl.
  unfold loadUserAndLogin. cbn [usersDb].
  rewrite dbGet_dbSetData, Hown, String.eqb_refl.
  cbn. rewrite (themeOrDefault_known _ Htheme).
  repeat split.
  - now destruct (engine app).
  - rewrite dbGet_dbSetData, Hown, String.eqb_refl. reflexivity.
  - intros v Hv. rewrite dbGet_dbSetData, Hown.
    destruct (String.eqb_spec v u); [contradiction | reflexivity].
Qed.

(** X19.  What the login screen refuses, it refuses without touching
    anything.  A login under a name without account or with another
    password than the stored one ends with the alert "Fel inloggning"; a
    sign-up with an empty name or password ends with "Fel"; a sign-up under
    a name that has an account, or that [Object.prototype] answers for, ends
    with "Upptaget" - the account, its password and its data stay as they
    are; a login under a name that [Object.prototype] answers for ends in a
    type error.  In all these cases the component and the store are
    unchanged. *)
Theorem refused_logins_change_nothing
    trim toLowerCase inherited app authName authPass fullName age email :
  let u := toLowerCase (trim authName) in
  let login := handleLogin trim toLowerCase inherited authName authPass app in
  let signup := handleSignUp trim toLowerCase inherited authName authPass
                  fullName age email app in
  (dbGet inherited (usersDb app) u = Absent -> login = (app, AlertBadLogin))
  /\ (forall user, dbGet inherited (usersDb app) u = Own user ->
        Auth.password (UserData.auth user) <> trim authPass ->
        login = (app, AlertBadLogin))
  /\ (dbGet inherited (usersDb app) u = Inherited ->
        login = (app, ThrewTypeError))
  /\ (u = EmptyString \/ trim authPass = EmptyString ->
        signup = (app, AlertMissingFields))
  /\ (u <> EmptyString -> trim authPass <> EmptyString ->
      dbGet inherited (usersDb app) u <> Absent ->
        signup = (app, AlertNameTaken)).
Proof.
  intros u login signup. subst login signup. unfold handleLogin, handleSignUp.
  fold u. repeat split.
  - intros H. now rewrite H.
  - intros user H Hp. rewrite H.
    destruct (String.eqb_spec (Auth.password (UserData.auth user)) (trim authPass));
      [contradiction | reflexivity].
  - intros H. now rewrite H.
  - intros [H | H]; rewrite H.
    + reflexivity.
    + now rewrite String.eqb_refl, orb_true_r.
  - intros H1 H2 H3.
    destruct (String.eqb_spec u EmptyString); [contradiction |].
    destruct (String.eqb_spec (trim authPass) EmptyString); [contradiction |].
    cbn [orb]. destruct (dbGet inherited (usersDb app) u); [reflexivity ..|].
    contradiction.
Qed.

(** X20.  A sign-up under a free name with a password creates the account
    and logs the user in: the engine state is empty, the theme is the light
    one, the store holds the account under the lower-cased trimmed name,
    with the trimmed password, and the entries of all other names are as
    before.  A later login with that name and password is accepted. *)
Theorem signup_creates_an_empty_account
    trim toLowerCase inherited app authName authPass fullName age email :
  let u := toLowerCase (trim authName) in
  let account :=
    UserData.mk (Auth.mk u (trim authPass) fullName age email)
      (Data.mk [] [] [] "light") in
  u <> EmptyString -> trim authPass <> EmptyString ->
  dbGet inherited (usersDb app) u = Absent ->
  let out := handleSignUp trim toLowerCase inherited authName authPass
               fullName age email app in
  snd out = Done
  /\ habits (engine (fst out)) = [] /\ history (engine (fst out)) = []
  /\ goals (engine (fst out)) = []
  /\ currentTheme (fst out) = "light"%string
  /\ currentUser (fst out) = Some u /\ isLoggedIn (fst out) = true
  /\ dbGet inherited (usersDb (fst out)) u = Own account
  /\ (forall v, v <> u ->
        dbGet inherited (usersDb (fst out)) v = dbGet inherited (usersDb app) v)
  /\ snd (handleLogin trim toLowerCase inherited authName authPass
            (handleLogout inherited (fst out))) = Done.
Proof.
  intros u account Hu Hp Habs out. subst out. unfold handleSignUp. fold u.
  destruct (String.eqb_spec u EmptyString); [contradiction |].
  destruct (String.eqb_spec (trim authPass) EmptyString); [contradiction |].
  cbn [orb]. rewrite Habs. unfold loadUserAndLogin. cbn [usersDb].
  rewrite dbGet_dbSet_same. fold account. cbn.
  repeat split.
  - apply dbGet_dbSet_same.
  - intros v Hv. now apply dbGet_dbSet_other.
  - unfold handleLogin, handleLogout. fold u. cbn.
    destruct (String.eqb_spec u EmptyString); [contradiction |].
    cbn [negb]. rewrite dbGet_dbSetData, dbGet_dbSet_same, String.eqb_refl.
    cbn. rewrite String.eqb_refl. unfold loadUserAndLogin. cbn.
    rewrite dbGet_dbSetData, dbGet_dbSet_same, String.eqb_refl. reflexivity.
Qed.

(** X21.  While a user with an account is logged in, the store mirrors the
    engine: after every engine command the entry under the user's name holds
    the engine state the command produced, with the account's credentials
    unchanged, and no other entry of the store changes.  The engine itself
    moves exactly as it does without accounts. *)
Theorem store_mirrors_the_engine inherited e c app u user :
  currentUser app = Some u -> u <> EmptyString -> isLoggedIn app = true ->
  dbGet inherited (usersDb app) u = Own user ->
  let app' := appStep inherited e c app in
  engine app' = step e c (engine app)
  /\ currentUser app' = Some u /\ isLoggedIn app' = true
  /\ currentTheme app' = currentTheme app
  /\ dbGet inherited (usersDb app') u
     = Own (UserData.mk (UserData.auth user) (snapshot app'))
  /\ (forall v, v <> u ->
        dbGet inherited (usersDb app') v = dbGet inherited (usersDb app) v).
Proof.
  intros Hu Hne Hl Hown app'. subst app'. unfold appStep, persist.
  cbn [currentUser isLoggedIn]. rewrite Hu, Hl.
  destruct (String.eqb_spec u EmptyString); [contradiction |].
  cbn [negb andb engine currentUser isLoggedIn currentTheme usersDb].
  repeat split.
  - rewrite dbGet_dbSetData, Hown, String.eqb_refl. reflexivity.
  - intros v Hv. rewrite dbGet_dbSetData, Hown.
    destruct (String.eqb_spec v u); [contradiction | reflexivity].
Qed.

(* ===================================================================== *)
(** ** The day of a manual log                                            *)
(* ===================================================================== *)

(** [daysFromCivil] counts from 1 March: the days of the whole years before
    the March-based year [y'], then the days of the months since March. *)
Lemma daysFromCivil_march y m d :
  1 <= m <= 12 ->
  let y' := if m <=? 2 then y - 1 else y in
  let mp := if m <=? 2 then m + 9 else m - 3 in
  JS.daysFromCivil y m d
  = 365 * y' + y' / 4 - y' / 100 + y' / 400
    + ((153 * mp + 2) / 5 + d - 1) - 719468.
Proof.
  intros Hm. unfold JS.daysFromCivil. cbv zeta.
  destruct (Z.leb_spec m 2); Z.div_mod_to_equations; lia.
Qed.

(** [civilFromDays] finds the March-based year of a day number, and the
    month and day from the day of that year. *)
Lemma civilFromDays_march y' doy :
  0 <= doy ->
  365 * y' + y' / 4 - y' / 100 + y' / 400 + doy
    < 365 * (y' + 1) + (y' + 1) / 4 - (y' + 1) / 100 + (y' + 1) / 400 ->
  JS.civilFromDays
    (365 * y' + y' / 4 - y' / 100 + y' / 400 + doy - 719468)
  = let mp := (5 * doy + 2) / 153 in
    let m := if mp <? 10 then mp + 3 else mp - 9 in
    (y' + (if m <=? 2 then 1 else 0), m, doy - (153 * mp + 2) / 5 + 1).
Proof.
  intros H0 H1. unfold JS.civilFromDays. cbv zeta.
  set (z' := 365 * y' + y' / 4 - y' / 100 + y' / 400 + doy - 719468 + 719468).
  assert (Hera : z' / 146097 = y' / 400)
    by (subst z'; Z.div_mod_to_equations; lia).
  rewrite Hera.
  set (yoe := y' - y' / 400 * 400).
  assert (Hyoe : 0 <= yoe <= 399) by (subst yoe; Z.div_mod_to_equations; lia).
  assert (Hdoe : z' - y' / 400 * 146097
                 = 365 * yoe + yoe / 4 - yoe / 100 + doy)
    by (subst z' yoe; Z.div_mod_to_equations; lia).
  rewrite Hdoe.
  set (doe := 365 * yoe + yoe / 4 - yoe / 100 + doy).
  assert (Hy : (doe - doe / 1460 + doe / 36524 - doe / 146096) / 365 = yoe).
  { assert (Hlt : doe < 365 * (yoe + 1) + (yoe + 1) / 4 - (yoe + 1) / 100
                        + (yoe + 1) / 400)
      by (subst doe yoe; Z.div_mod_to_equations; lia).
    clearbody yoe. subst doe. clear - Hyoe H0 Hlt.
    Z.div_mod_to_equations; lia. }
  rewrite Hy.
  replace (doe - (365 * yoe + yoe / 4 - yoe / 100)) with doy by (subst doe; lia).
  f_equal. f_equal. subst yoe. lia.
Qed.

Ltac decide_tests :=
  repeat match goal with
         | H : context [Z.leb ?a ?b] |- _ => destruct (Z.leb_spec a b); try lia
         | H : context [Z.ltb ?a ?b] |- _ => destruct (Z.ltb_spec a b); try lia
         | H : context [Z.eqb ?a ?b] |- _ => destruct (Z.eqb_spec a b); try lia
         | |- context [Z.leb ?a ?b] => destruct (Z.leb_spec a b); try lia
         | |- context [Z.ltb ?a ?b] => destruct (Z.ltb_spec a b); try lia
         | |- context [Z.eqb ?a ?b] => destruct (Z.eqb_spec a b); try lia
         end.

(** The day number of a calendar date leads back to that date. *)
Lemma civil_roundtrip y m d :
  1 <= m <= 12 -> 1 <= d <= JS.daysInMonth y m ->
  JS.civilFromDays (JS.daysFromCivil y m d) = (y, m, d).
Proof.
  intros Hm Hd. unfold JS.daysInMonth in Hd.
  rewrite (daysFromCivil_march y m 1 Hm) in Hd.
  rewrite daysFromCivil_march in Hd by (destruct (Z.eqb_spec m 12); lia).
  rewrite (daysFromCivil_march y m d Hm). cbv zeta in Hd |- *.
  assert (Hc : m = 1 \/ m = 2 \/ m = 3 \/ m = 4 \/ m = 5 \/ m = 6
               \/ m = 7 \/ m = 8 \/ m = 9 \/ m = 10 \/ m = 11 \/ m = 12)
    by lia.
  rewrite civilFromDays_march.
  - cbv zeta.
    assert (Hmp : (5 * ((153 * (if m <=? 2 then m + 9 else m - 3) + 2) / 5
                        + d - 1) + 2) / 153
                  = if m <=? 2 then m + 9 else m - 3).
    { repeat (destruct Hc as [-> | Hc]); try subst m; decide_tests;
        Z.div_mod_to_equations; lia. }
    rewrite Hmp. decide_tests. all: f_equal; [f_equal |]; lia.
  - decide_tests; Z.div_mod_to_equations; lia.
  - repeat (destruct Hc as [-> | Hc]); try subst m; decide_tests;
      Z.div_mod_to_equations; lia.
Qed.

(** X22.  A manual log falls on the day that was typed, in every time
    zone.  For a date of the form YYYY-MM-DD that names a day of the
    calendar (year at least 100), with minutes that read as a positive
    number and a habit selected, [saveManualLog] puts one record of
    [60 * minutes] seconds in front of the ledger whose time stamp is local
    midnight of that date: read back in local time it gives the year, month
    and day that were typed.  The one exception is a local midnight that is
    the epoch itself (time stamp 0): that record is stamped with the time of
    logging. *)
Theorem manual_log_falls_on_the_typed_day
    e hid habit manualDate manualMinutes mins y m d st :
  find (fun h => (Habit.id h =? hid)%string) (habits st) = Some habit ->
  JS.parseInt manualMinutes = Some mins -> 0 < mins ->
  JS.matchDate manualDate = Some (y, m, d) ->
  100 <= y -> 1 <= m <= 12 -> 1 <= d <= JS.daysInMonth y m ->
  exists r,
    history (saveManualLog e (Some hid) manualDate manualMinutes st)
      = r :: history st
    /\ HistoryItem.habitName r = Habit.name habit
    /\ HistoryItem.duration r = mins * 60
    /\ HistoryItem.mode r = hManual
    /\ (JS.Date_local y (m - 1) d (tz e) <> 0 ->
        HistoryItem.timestampMs r = JS.Date_local y (m - 1) d (tz e)
        /\ JS.localYMD (HistoryItem.timestampMs r) (tz e) = (y, m, d))
    /\ (JS.Date_local y (m - 1) d (tz e) = 0 ->
        HistoryItem.timestampMs r = now e).
Proof.
  intros Hf Hp Hpos Hd Hy Hm Hday. unfold saveManualLog.
  rewrite Hf, Hp, Hd. destruct (Z.leb_spec mins 0); [lia |].
  rewrite saveSession_nonzero by lia. cbn [history].
  eexists. split; [reflexivity |]. cbn [HistoryItem.habitName
    HistoryItem.duration HistoryItem.mode HistoryItem.timestampMs].
  repeat split.
  - unfold stampOr, JS.orElse.
    destruct (Z.eqb_spec (JS.Date_local y (m - 1) d (tz e)) 0);
      [contradiction | reflexivity].
  - unfold stampOr, JS.orElse.
    destruct (Z.eqb_spec (JS.Date_local y (m - 1) d (tz e)) 0);
      [contradiction |].
    unfold JS.localYMD, JS.Date_local.
    destruct (Z.leb_spec 0 y); destruct (Z.leb_spec y 99); cbn [andb]; try lia.
    rewrite (Z.div_small (m - 1) 12), (Z.mod_small (m - 1) 12) by lia.
    replace (y + 0) with y by lia. replace (m - 1 + 1) with m by lia.
    rewrite <- daysFromCivil_day.
    replace (JS.daysFromCivil y m d * JS.msPerDay - tz e + tz e)
      with (JS.daysFromCivil y m d * JS.msPerDay) by lia.
    rewrite Z.div_mul by (unfold JS.msPerDay; lia).
    now apply civil_roundtrip.
  - intros H0. unfold stampOr, JS.orElse. now rewrite H0.
Qed.

(** A manual log for 29 February 2024, typed nine hours east of UTC. *)
Lemma manual_log_falls_on_the_typed_day_witness :
  let e := mkEnv (now juneNoon) 32400000 "0.5" in
  exists r,
    history (saveManualLog e (Some "1"%string) "2024-02-29" "45"
               (mkState [reading] [] [] false)) = [r]
    /\ HistoryItem.duration r = 2700
    /\ JS.localYMD (HistoryItem.timestampMs r) (tz e) = (2024, 2, 29).
Proof.
  intros e.
  destruct (manual_log_falls_on_the_typed_day e "1"%string reading
              "2024-02-29"%string "45"%string 45 2024 2 29
              (mkState [reading] [] [] false)
              eq_refl eq_refl eq_refl eq_refl)
    as (r & Hh & _ & Hdur & _ & Hts & _); [lia | lia | |].
  - split; [lia |]. vm_compute. discriminate.
  - exists r. split; [exact Hh |]. split; [exact Hdur |].
    apply Hts. vm_compute. discriminate.
Defined.

(* ===================================================================== *)
(** ** The categories offered in the dialog                               *)
(* ===================================================================== *)

Lemma distinct_spec seen xs :
  NoDup (distinct seen xs)
  /\ (forall x, In x (distinct seen xs) <-> In x xs /\ ~ In x seen).
Proof.
  revert seen. induction xs as [| a xs IH]; intros seen; simpl.
  - split; [constructor | intros x; tauto].
  - destruct (existsb (String.eqb a) seen) eqn:E.
    + destruct (IH seen) as [N S]. split; [exact N |].
      intros x. rewrite S. split; [tauto |].
      intros [[<- | Hx] Hn]; [| tauto].
      exfalso. apply Hn. apply existsb_exists in E.
      destruct E as (y & Hy & Hay). apply String.eqb_eq in Hay. now subst.
    + assert (Hna : ~ In a seen).
      { intros Hin. assert (existsb (String.eqb a) seen = true)
          by (apply existsb_exists; exists a; split;
              [exact Hin | apply String.eqb_refl]). congruence. }
      destruct (IH (a :: seen)) as [N S]. split.
      * constructor; [| exact N]. rewrite S. simpl. tauto.
      * intros x. simpl. rewrite S. simpl.
        destruct (string_dec a x) as [-> | Hax]; [tauto |]. tauto.
Qed.

(** X23.  The categories offered when a habit is created: each category
    that some habit carries and that is not blank (empty, or empty after
    trimming) is offered exactly once, and nothing else is offered. *)
Theorem existingCategories_lists_each_once trim hs :
  NoDup (existingCategories trim hs)
  /\ (forall c, In c (existingCategories trim hs) <->
        c <> EmptyString /\ trim c <> EmptyString
        /\ exists h, In h hs /\ Habit.category h = Some c).
Proof.
  unfold existingCategories.
  match goal with |- context [distinct [] ?l] =>
    destruct (distinct_spec [] l) as [N S] end.
  split; [exact N |]. intros c. rewrite S. rewrite in_flat_map. split.
  - intros [(h & Hin & Hc) _]. destruct (Habit.category h) as [c' |] eqn:E;
      [| contradiction].
    destruct (String.eqb_spec c' EmptyString) as [| N1]; [contradiction |].
    destruct (String.eqb_spec (trim c') EmptyString) as [| N2]; [contradiction |].
    destruct Hc as [<- | []]. split; [exact N1 |]. split; [exact N2 |].
    now exists h.
  - intros (N1 & N2 & h & Hin & Hc). split; [| tauto].
    exists h. split; [exact Hin |]. rewrite Hc.
    destruct (String.eqb_spec c EmptyString); [contradiction |].
    destruct (String.eqb_spec (trim c) EmptyString); [contradiction |].
    now left.
Qed.

Lemma existingCategories_lists_each_once_witness :
  existingCategories trimAscii
    [Habit.mk "1" "Run" (Some "Health"%string) "#fff" stopwatch 60 "1" 0 false 0 EmptyString;
     reading;
     Habit.mk "3" "Swim" (Some "Health"%string) "#fff" stopwatch 60 "1" 0 false 0 EmptyString;
     Habit.mk "4" "Read" (Some "  "%string) "#fff" stopwatch 60 "1" 0 false 0 EmptyString;
     Habit.mk "5" "Code" (Some "Work"%string) "#fff" stopwatch 60 "1" 0 false 0 EmptyString]
  = ["Health"; "Work"]%string
  /\ NoDup (existingCategories trimAscii [reading; meditate]).
Proof.
  split; [reflexivity |].
  exact (proj1 (existingCategories_lists_each_once trimAscii [reading; meditate])).
Defined.

(* ===================================================================== *)
(** ** The accounts on a sample run                                       *)
(* ===================================================================== *)

Lemma logout_login_restores_the_session_witness :
  let alice := UserData.mk (Auth.mk "alice" "secret" "Alice" "30" "a@b.c")
                 (Data.mk [] [] [] "light") in
  let app := mkApp (mkState [reading] [] [goalJan1to3] false) "dark" true
               (Some "alice"%string) [("alice"%string, alice)] in
  let out := handleLogin trimAscii toLowerAscii inheritedName " Alice " "secret "
               (handleLogout inheritedName app) in
  snd out = Done /\ engine (fst out) = engine app
  /\ currentTheme (fst out) = "dark"%string.
Proof.
  intros alice app out.
  destruct (logout_login_restores_the_session trimAscii toLowerAscii
              inheritedName app " Alice "%string "secret "%string
              "alice"%string alice eq_refl ltac:(discriminate) eq_refl
              eq_refl eq_refl (or_intror (or_introl eq_refl)))
    as (H1 & H2 & H3 & _).
  split; [exact H1 |]. split; [exact H2 | exact H3].
Defined.

Lemma refused_logins_change_nothing_witness :
  let alice := UserData.mk (Auth.mk "alice" "secret" "Alice" "30" "a@b.c")
                 (Data.mk [reading] [] [] "light") in
  let app := mkApp emptyState "light" false None [("alice"%string, alice)] in
  handleLogin trimAscii toLowerAscii inheritedName "Alice" "wrong" app
    = (app, AlertBadLogin)
  /\ handleLogin trimAscii toLowerAscii inheritedName "bob" "secret" app
    = (app, AlertBadLogin)
  /\ handleSignUp trimAscii toLowerAscii inheritedName "ALICE" "other" "x" "1"
       "x@y.z" app = (app, AlertNameTaken)
  /\ handleSignUp trimAscii toLowerAscii inheritedName "constructor" "pw" "x"
       "1" "x@y.z" app = (app, AlertNameTaken)
  /\ handleLogin trimAscii toLowerAscii inheritedName "constructor" "pw" app
    = (app, ThrewTypeError)
  /\ handleSignUp trimAscii toLowerAscii inheritedName "   " "pw" "x" "1"
       "x@y.z" app = (app, AlertMissingFields).
Proof.
  intros alice app.
  split; [| split; [| split; [| split; [| split]]]].
  - exact (proj1 (proj2 (refused_logins_change_nothing trimAscii toLowerAscii
             inheritedName app "Alice"%string "wrong"%string EmptyString
             EmptyString EmptyString)) alice eq_refl ltac:(discriminate)).
  - exact (proj1 (refused_logins_change_nothing trimAscii toLowerAscii
             inheritedName app "bob"%string "secret"%string EmptyString
             EmptyString EmptyString) eq_refl).
  - exact (proj2 (proj2 (proj2 (proj2 (refused_logins_change_nothing trimAscii
             toLowerAscii inheritedName app "ALICE"%string "other"%string
             "x"%string "1"%string "x@y.z"%string))))
             ltac:(discriminate) ltac:(discriminate) ltac:(discriminate)).
  - exact (proj2 (proj2 (proj2 (proj2 (refused_logins_change_nothing trimAscii
             toLowerAscii inheritedName app "constructor"%string "pw"%string
             "x"%string "1"%string "x@y.z"%string))))
             ltac:(discriminate) ltac:(discriminate) ltac:(discriminate)).
  - exact (proj1 (proj2 (proj2 (refused_logins_change_nothing trimAscii
             toLowerAscii inheritedName app "constructor"%string "pw"%string
             EmptyString EmptyString EmptyString))) eq_refl).
  - exact (proj1 (proj2 (proj2 (proj2 (refused_logins_change_nothing trimAscii
             toLowerAscii inheritedName app "   "%string "pw"%string
             "x"%string "1"%string "x@y.z"%string)))) (or_introl eq_refl)).
Defined.

Lemma signup_creates_an_empty_account_witness :
  let out := handleSignUp trimAscii toLowerAscii inheritedName " Bob" "pw" "Bob"
               "41" "b@c.d" freshApp in
  snd out = Done /\ currentUser (fst out) = Some "bob"%string
  /\ usersDb (fst out)
     = [("bob"%string,
         UserData.mk (Auth.mk "bob" "pw" "Bob" "41" "b@c.d")
           (Data.mk [] [] [] "light"))].
Proof.
  intros out.
  destruct (signup_creates_an_empty_account trimAscii toLowerAscii
              inheritedName freshApp " Bob"%string "pw"%string "Bob"%string
              "41"%string "b@c.d"%string ltac:(discriminate)
              ltac:(discriminate) eq_refl)
    as (H1 & _ & _ & _ & _ & H2 & _).
  split; [exact H1 |]. split; [exact H2 | reflexivity].
Defined.

(** Alice starts "Reading" while Bob has an account too: her entry follows
    the engine, his does not move. *)
Lemma store_mirrors_the_engine_witness :
  let alice := UserData.mk (Auth.mk "alice" "secret" "Alice" "30" "a@b.c")
                 (Data.mk [reading] [] [] "light") in
  let bob := UserData.mk (Auth.mk "bob" "pw" "Bob" "41" "b@c.d")
               (Data.mk [meditate] [] [] "dark") in
  let app := mkApp (mkState [reading] [] [] false) "light" true
               (Some "alice"%string)
               [("alice"%string, alice); ("bob"%string, bob)] in
  let app' := appStep inheritedName juneNoon (ToggleRun "1") app in
  dbGet inheritedName (usersDb app') "alice"
    = Own (UserData.mk (UserData.auth alice)
             (Data.mk [Habit.set_isRunning true reading] [] [] "light"))
  /\ dbGet inheritedName (usersDb app') "bob" = Own bob.
Proof.
  intros alice bob app app'.
  destruct (store_mirrors_the_engine inheritedName juneNoon (ToggleRun "1") app
              "alice"%string alice eq_refl ltac:(discriminate) eq_refl eq_refl)
    as (_ & _ & _ & _ & H1 & H2).
  split; [exact H1 |]. exact (H2 "bob"%string ltac:(discriminate)).
Defined.
